(** * aioftp.common: throttled streams and async iteration helpers

    A shallow embedding of [src/aioftp/common.py].

    - [int] is [Z]; [bytes] is a list of bytes. The clock of the event loop
      is exact: loop times and durations are rationals ([Q]). A [float] as
      Python computes with it is a binary64 number ([Float]), and
      [Throttle.append], whose stored numbers depend on how floats round,
      is given on floats as well ([FloatThrottle]).
    - The asyncio event loop is a world with a virtual clock: running code
      takes no time, [asyncio.sleep d] takes exactly [d], and every call of
      [asyncio.sleep] is recorded with the loop time at which it started.
      Tasks awaited together with [asyncio.wait] all start at the loop time
      of the [await], and the waiter resumes when the last of them is done.
    - [Throttle] objects and [dict] objects are mutable and may be shared, so
      they live in a store and are referred to by address.
    - What a transport delivers, and after how long, is data of the world.
    - A loop that need not end takes fuel. *)

From Stdlib Require Import ZArith QArith Qround List String Bool Lia Lqa.
From Stdlib Require Import Strings.Byte.
From Stdlib Require Import Floats.SpecFloat.
Import ListNotations.

(** ** Python values *)

Definition bytes := list byte.

(** [len(data)] *)
Definition len (data : bytes) : Z := Z.of_nat (List.length data).

(** Truth value of a [bytes] object: empty is false. *)
Definition bytes_truthy (data : bytes) : bool :=
  match data with [] => false | _ :: _ => true end.

(** Truth value of an [Optional[int]]: [None] and [0] are false. *)
Definition int_truthy (v : option Z) : bool :=
  match v with Some n => negb (n =? 0)%Z | None => false end.

(** Truth value of an optional number: [None] and zero are false. *)
Definition num_truthy (v : option Q) : bool :=
  match v with Some q => negb (Qeq_bool q 0) | None => false end.

(** [a or b] on optional numbers: [a] when it is true, else [b]. *)
Definition py_or (a b : option Q) : option Q :=
  if num_truthy a then a else b.

Definition Qlt_bool (a b : Q) : bool := negb (Qle_bool b a).

(** [max(0, x)]: the first argument unless the second is greater. *)
Definition py_max0 (x : Q) : Q := if Qlt_bool 0 x then x else 0.

(** [round(x)] to an [int]: the nearest integer, a tie going to the even one. *)
Definition py_round (x : Q) : Z :=
  let f := Qfloor x in
  match Qcompare (x - inject_Z f)%Q (1 # 2)%Q with
  | Lt => f
  | Gt => (f + 1)%Z
  | Eq => if Z.even f then f else (f + 1)%Z
  end.

(** The later of two loop times. *)
Definition later (a b : Q) : Q := if Qle_bool a b then b else a.

(** Exceptions that cross the functions modelled here. *)
Inductive Exn : Set :=
| TimeoutError
| StopAsyncIteration
| ConnectionResetError
| IncompleteReadError
| OverflowError
| ValueError.

Inductive Result (A : Type) : Type :=
| Ok (a : A)
| Raise (e : Exn).
Arguments Ok {A} a.
Arguments Raise {A} e.

(** ** float *)

(** A Python [float] is an IEEE 754 binary64 number: [spec_float] at
    precision 53 with exponents below 1024. Its operations round to the
    nearest float, a tie going to the even one. *)
Module Float.

Definition t : Set := spec_float.

Definition prec : Z := 53.
Definition emax : Z := 1024.

(** [x - y] *)
Definition sub (x y : t) : t := SFsub prec emax x y.

(** [x * y] *)
Definition mul (x y : t) : t := SFmul prec emax x y.

(** [float(n)] of an [int] [n], as a product of a [float] and an [int]
    makes it: the nearest float, or [OverflowError]. *)
Definition of_int (n : Z) : Result t :=
  match binary_normalize prec emax n 0 false with
  | S754_infinity _ => Raise OverflowError
  | x => Ok x
  end.

(** What a number is worth. *)
Inductive Value : Set :=
| NaN
| Infinity (negative : bool)
| Finite (q : Q).

Definition value (x : t) : Value :=
  match x with
  | S754_nan => NaN
  | S754_infinity s => Infinity s
  | S754_zero _ => Finite 0
  | S754_finite s m e =>
      Finite ((if s then - inject_Z (Zpos m) else inject_Z (Zpos m)) * 2 ^ e)
  end.

(** [round(x)]: the nearest [int] to what [x] is worth, a tie going to the
    even one; [OverflowError] for an infinity and [ValueError] for a NaN. *)
Definition round (x : t) : Result Z :=
  match value x with
  | Finite q => Ok (py_round q)
  | Infinity _ => Raise OverflowError
  | NaN => Raise ValueError
  end.

(** An [int] or a [float]. *)
Inductive Number : Set :=
| Int (n : Z)
| Real (x : t).

Definition number_value (y : Number) : Value :=
  match y with
  | Int n => Finite (inject_Z n)
  | Real x => value x
  end.

(** [a > b] and [a <= b]: by what the numbers are worth, an [int] taken
    exactly; false when one of them is a NaN. *)
Definition value_gt (a b : Value) : bool :=
  match a, b with
  | NaN, _ | _, NaN => false
  | Infinity sa, Infinity sb => negb sa && sb
  | Infinity sa, Finite _ => negb sa
  | Finite _, Infinity sb => sb
  | Finite x, Finite y => Qlt_bool y x
  end.

Definition value_le (a b : Value) : bool :=
  match a, b with
  | NaN, _ | _, NaN => false
  | Infinity sa, Infinity sb => sa || negb sb
  | Infinity sa, Finite _ => sa
  | Finite _, Infinity sb => negb sb
  | Finite x, Finite y => Qle_bool x y
  end.

Definition gt (x : t) (y : Number) : bool := value_gt (value x) (number_value y).

Definition le (x : t) (y : Number) : bool := value_le (value x) (number_value y).

End Float.

(** ** The event loop *)

Module Asyncio.
Section Loop.
Context {S : Type}.

(** [time] is [loop.time()]; [sleeps] lists the [asyncio.sleep] calls made
    so far as (start time, duration); [state] is everything else. *)
Record World : Type := mkWorld {
  time : Q;
  sleeps : list (Q * Q);
  state : S
}.

Definition M (A : Type) : Type := World -> Result A * World.

Definition ret {A} (a : A) : M A := fun w => (Ok a, w).

Definition raise {A} (e : Exn) : M A := fun w => (Raise e, w).

Definition bind {A B} (m : M A) (k : A -> M B) : M B :=
  fun w =>
    match m w with
    | (Ok a, w1) => k a w1
    | (Raise e, w1) => (Raise e, w1)
    end.

Definition modify (f : S -> S) : M unit :=
  fun w => (Ok tt, mkWorld (time w) (sleeps w) (f (state w))).

Definition set_time (c : Q) (w : World) : World :=
  mkWorld c (sleeps w) (state w).

(** [asyncio.sleep(d)] *)
Definition sleep (d : Q) : M unit :=
  fun w => (Ok tt, mkWorld (time w + d) (sleeps w ++ [(time w, d)]) (state w)).

(** A coroutine that suspends once: it applies [prefix] when it starts,
    is pending for [took], then applies [commit] and finishes with
    [outcome]. *)
Record Pending (A : Type) : Type := mkPending {
  prefix : S -> S;
  took : Q;
  outcome : Result A;
  commit : S -> S
}.
Arguments prefix {A} _.
Arguments took {A} _.
Arguments outcome {A} _.
Arguments commit {A} _.
Arguments mkPending {A} _ _ _ _.

(** The coroutine that [wait_for] leaves behind when it cancels. *)
Definition cancelled {A} (pre : S -> S) (after : Q) : Pending A :=
  mkPending pre after (Raise TimeoutError) (fun s => s).

Definition Coroutine (A : Type) : Type := World -> Pending A.

(** [await coro] *)
Definition await {A} (coro : Coroutine A) : M A :=
  fun w =>
    let p := coro w in
    (outcome p,
     mkWorld (time w + took p) (sleeps w) (commit p (prefix p (state w)))).

(** [asyncio.wait_for(coro, timeout)]: without a timeout the coroutine
    itself. A timeout that is not positive cancels the coroutine before it
    has started. Otherwise the timer of the deadline is set before the
    coroutine starts, so it fires first when both are due at the same loop
    time: a coroutine that is not done before the deadline is cancelled
    there, so that it commits nothing, and [TimeoutError] is raised. *)
Definition wait_for {A} (coro : Coroutine A) (timeout : option Q) : Coroutine A :=
  fun w =>
    let p := coro w in
    match timeout with
    | None => p
    | Some t =>
        if Qle_bool t 0 then cancelled (fun s => s) 0
        else if Qle_bool t (took p) then cancelled (prefix p) t
        else p
    end.

(** Tasks made with [asyncio.create_task] do not run before the creator
    suspends. [asyncio.wait(tasks)] then lets every task run from the same
    loop time [c], and resumes the waiter when the last one is done. *)
Fixpoint run_tasks (c : Q) (tasks : list (M unit)) (latest : Q) (w : World) : World :=
  match tasks with
  | [] => set_time latest w
  | task :: rest =>
      let w1 := snd (task (set_time c w)) in
      run_tasks c rest (later latest (time w1)) w1
  end.

Definition wait (tasks : list (M unit)) : M unit :=
  fun w => (Ok tt, run_tasks (time w) tasks (time w) w).

End Loop.
Arguments World S : clear implicits.
Arguments M S A : clear implicits.
Arguments Pending S A : clear implicits.
Arguments Coroutine S A : clear implicits.
Arguments prefix {S A} _.
Arguments took {S A} _.
Arguments outcome {S A} _.
Arguments commit {S A} _.
Arguments mkPending {S A} _ _ _ _.
End Asyncio.

Declare Scope py_scope.
Delimit Scope py_scope with py.
Notation "x <- m ;; k" := (Asyncio.bind m (fun x => k))
  (at level 61, m at next level, right associativity) : py_scope.
Notation "m ;; k" := (Asyncio.bind m (fun _ => k))
  (at level 61, right associativity) : py_scope.

(** [_now()] *)
Definition _now {S} : Asyncio.M S Q := fun w => (Ok (Asyncio.time w), w).

(** [with_timeout(name)(f)]: the wrapper reads the attribute [name] of
    [self] when it is called and awaits [f(self, args)] under
    [asyncio.wait_for] with that timeout. *)
Definition with_timeout {S Self Args A} (name : Self -> option Q)
    (f : Self -> Args -> Asyncio.Coroutine S A) : Self -> Args -> Asyncio.Coroutine S A :=
  fun self args =>
    let coro := f self args in
    let timeout := name self in
    Asyncio.wait_for coro timeout.

Local Open Scope py_scope.

(** ** class AsyncStreamIterator *)

Module AsyncStreamIterator.
Section Iterator.
Context {S T : Type}.
(** The truth value of a [T]. *)
Variable truthy : T -> bool.

Record t : Type := mk {
  read_coro : Asyncio.M S T
}.

(** [def __aiter__(self)] *)
Definition __aiter__ (self : t) : t := self.

(** [async def __anext__(self)] *)
Definition __anext__ (self : t) : Asyncio.M S T :=
  data <- read_coro self ;;
  if truthy data then Asyncio.ret data else Asyncio.raise StopAsyncIteration.

End Iterator.
Arguments t S T : clear implicits.
End AsyncStreamIterator.

(** [items = []], then [async for item in it: items.append(item)], where
    [anext] is [type(it).__anext__(it)]: the loop ends when a step raises
    [StopAsyncIteration]; any other exception leaves it. [fuel] bounds the
    number of steps, [None] is out of fuel. *)
Fixpoint async_for_append {S T} (fuel : nat) (anext : Asyncio.M S T) (items : list T)
    (w : Asyncio.World S) : option (Result (list T) * Asyncio.World S) :=
  match fuel with
  | O => None
  | Datatypes.S fuel' =>
      match anext w with
      | (Ok item, w1) => async_for_append fuel' anext (items ++ [item]) w1
      | (Raise StopAsyncIteration, w1) => Some (Ok items, w1)
      | (Raise e, w1) => Some (Raise e, w1)
      end
  end.

(** ** class AsyncListerMixin *)

Module AsyncListerMixin.

(** [async def _to_list(self)], which [__await__] delegates to; [anext] is
    [type(self).__anext__(self)]. *)
Definition _to_list {S T} (fuel : nat) (anext : Asyncio.M S T) :=
  async_for_append fuel anext [].

End AsyncListerMixin.

(** ** class AbstractAsyncLister(AsyncListerMixin, abc.ABC) *)

Module AbstractAsyncLister.
Section Lister.
Context {S T : Type}.
(** Python's [None], which the body of the abstract method returns. *)
Variable none : T.

Record t : Type := mk {
  timeout : option Q
}.

(** A function object that can be the [__anext__] of a class. *)
Definition Method : Type := t -> unit -> Asyncio.Coroutine S T.

(** The body under [@abc.abstractmethod]: a docstring only. *)
Definition abstract_anext : Method :=
  fun _ _ _ => Asyncio.mkPending (fun s => s) 0 (Ok none) (fun s => s).

(** [@with_timeout @abc.abstractmethod async def __anext__(self)]: the
    attribute [__anext__] of the class [AbstractAsyncLister]. *)
Definition __anext__ : Method := with_timeout timeout abstract_anext.

(** A subclass, by the [__anext__] in its own body, if any. [abc] lets a
    class be instantiated only once it has one. *)
Record Subclass : Type := mkSubclass {
  own_anext : option Method
}.

Definition concrete (cls : Subclass) : bool :=
  match own_anext cls with Some _ => true | None => false end.

(** [type(self).__anext__]: attribute lookup goes through the subclass
    first and [AbstractAsyncLister] second. *)
Definition lookup_anext (cls : Subclass) : Method :=
  match own_anext cls with
  | Some m => m
  | None => __anext__
  end.

(** One step of iterating an instance of [cls]. *)
Definition step (cls : Subclass) (self : t) : Asyncio.M S T :=
  Asyncio.await (lookup_anext cls self tt).

(** [await self] for an instance of [cls]. *)
Definition await_list (fuel : nat) (cls : Subclass) (self : t) :=
  AsyncListerMixin._to_list fuel (step cls self).

End Lister.
Arguments t : clear implicits.
Arguments Method S T : clear implicits.
Arguments Subclass S T : clear implicits.
End AbstractAsyncLister.

(** [for x in xs: body(x)] *)
Fixpoint for_each {S A} (xs : list A) (body : A -> Asyncio.M S unit) : Asyncio.M S unit :=
  match xs with
  | [] => Asyncio.ret tt
  | x :: rest => body x ;; for_each rest body
  end.

(** ** Objects *)

Definition addr := nat.

Definition upd {A} (f : addr -> A) (a : addr) (v : A) : addr -> A :=
  fun x => if Nat.eqb x a then v else f x.

(** The attributes of a [Throttle] instance. *)
Record ThrottleObj : Type := mkThrottle {
  _limit : option Z;
  reset_rate : Q;
  _start : option Q;
  _sum : Z
}.

(** [StreamThrottle] is a [NamedTuple] of two references. *)
Record StreamThrottleObj : Set := mkStreamThrottle {
  read : addr;
  write : addr
}.

(** A [dict] keeps its keys in insertion order. *)
Definition Dict := list (string * StreamThrottleObj).

Definition values (d : Dict) : list StreamThrottleObj := map snd d.

(** [d[key] = v]: an existing key keeps its place, a new one goes last. *)
Fixpoint setitem (d : Dict) (key : string) (v : StreamThrottleObj) : Dict :=
  match d with
  | [] => [(key, v)]
  | (k, old) :: rest =>
      if String.eqb k key then (k, v) :: rest else (k, old) :: setitem rest key v
  end.

(** [d.get(key)] *)
Fixpoint getitem (d : Dict) (key : string) : option StreamThrottleObj :=
  match d with
  | [] => None
  | (k, v) :: rest => if String.eqb k key then Some v else getitem rest key
  end.

(** The store: the [Throttle] objects and the [dict] objects by address, the
    next unused address, and what the transports will do: for each
    [StreamReader] the outcomes of its coming reads, for each [StreamWriter]
    the outcomes of its coming drains (each with the time it takes) and the
    data handed to it so far. *)
Record Store : Type := mkStore {
  throttle_at : addr -> ThrottleObj;
  dict_at : addr -> Dict;
  next_addr : addr;
  incoming : nat -> list (Q * Result bytes);
  drains : nat -> list (Q * Result unit);
  written : nat -> list bytes
}.

Definition set_throttle (a : addr) (th : ThrottleObj) (s : Store) : Store :=
  mkStore (upd (throttle_at s) a th) (dict_at s) (next_addr s)
          (incoming s) (drains s) (written s).

Definition set_dict (a : addr) (d : Dict) (s : Store) : Store :=
  mkStore (throttle_at s) (upd (dict_at s) a d) (next_addr s)
          (incoming s) (drains s) (written s).

Definition World := Asyncio.World Store.
Definition M := Asyncio.M Store.
Definition Coroutine := Asyncio.Coroutine Store.

(** ** class Throttle *)

Module Throttle.

Definition with_start (th : ThrottleObj) (v : option Q) : ThrottleObj :=
  mkThrottle (_limit th) (reset_rate th) v (_sum th).

Definition with_sum (th : ThrottleObj) (v : Z) : ThrottleObj :=
  mkThrottle (_limit th) (reset_rate th) (_start th) v.

(** [Throttle(limit=..., reset_rate=...)]: a new object, after [__init__]. *)
Definition __init__ (limit : option Z) (reset_rate : Q) : M addr :=
  fun w =>
    let s := Asyncio.state w in
    let self := next_addr s in
    let s1 := mkStore (upd (throttle_at s) self (mkThrottle limit reset_rate None 0))
                      (dict_at s) (S self) (incoming s) (drains s) (written s) in
    (Ok self, Asyncio.mkWorld (Asyncio.time w) (Asyncio.sleeps w) s1).

(** The default of [reset_rate]. *)
Definition default_reset_rate : Q := 10.

(** [async def wait(self)] *)
Definition wait (self : addr) : M unit :=
  fun w =>
    let th := throttle_at (Asyncio.state w) self in
    match _limit th, _start th with
    | Some limit, Some start =>
        if (0 <? limit)%Z then
          (now <- _now ;;
           let end_ := (start + inject_Z (_sum th) / inject_Z limit)%Q in
           Asyncio.sleep (py_max0 (end_ - now))) w
        else (Ok tt, w)
    | _, _ => (Ok tt, w)
    end.

(** The body of [append] on the attributes of [self], on the exact clock
    ([FloatThrottle.append] is the same body on floats). *)
Definition append_obj (th : ThrottleObj) (data : bytes) (start : Q) : ThrottleObj :=
  match _limit th with
  | Some limit =>
      if (0 <? limit)%Z then
        let th1 :=
          match _start th with
          | None => with_start th (Some start)
          | Some _ => th
          end in
        let th2 :=
          match _start th1 with
          | Some start0 =>
              if Qlt_bool (reset_rate th1) (start - start0) then
                with_start
                  (with_sum th1 (_sum th1 - py_round ((start - start0) * inject_Z limit)))
                  (Some start)
              else th1
          | None => th1
          end in
        with_sum th2 (_sum th2 + len data)
      else th
  | None => th
  end.

(** [def append(self, data, start)] *)
Definition append (self : addr) (data : bytes) (start : Q) : M unit :=
  Asyncio.modify (fun s => set_throttle self (append_obj (throttle_at s self) data start) s).

(** The [limit] property. *)
Definition limit (self : addr) (s : Store) : option Z := _limit (throttle_at s self).

(** The setter of the [limit] property. *)
Definition set_limit (self : addr) (value : option Z) : M unit :=
  Asyncio.modify (fun s =>
    set_throttle self (mkThrottle value (reset_rate (throttle_at s self)) None 0) s).

(** [def clone(self)] *)
Definition clone (self : addr) : M addr :=
  fun w =>
    let th := throttle_at (Asyncio.state w) self in
    __init__ (_limit th) (reset_rate th) w.

End Throttle.

(** ** Throttle.append on floats *)

(** The numbers that [append] stores depend on how the floats round: the
    attributes of a [Throttle] with [_start] a [float] and [reset_rate] an
    [int] or a [float], and [append] on them with the arithmetic of
    [float]. The object is returned as the call leaves it, also when the
    product or its rounding raises; [start0] is [self._start] once the
    first [if] is done. *)
Module FloatThrottle.

Record t : Set := mk {
  _limit : option Z;
  reset_rate : Float.Number;
  _start : option Float.t;
  _sum : Z
}.

(** [def append(self, data, start)] *)
Definition append (self : t) (data : bytes) (start : Float.t) : Result unit * t :=
  match _limit self with
  | Some limit =>
      if (0 <? limit)%Z then
        let start0 :=
          match _start self with
          | None => start
          | Some start0 => start0
          end in
        let self1 := mk (_limit self) (reset_rate self) (Some start0) (_sum self) in
        if Float.gt (Float.sub start start0) (reset_rate self1) then
          match Float.of_int limit with
          | Ok rate =>
              match Float.round (Float.mul (Float.sub start start0) rate) with
              | Ok n =>
                  (Ok tt,
                   mk (_limit self1) (reset_rate self1) (Some start)
                      (_sum self1 - n + len data))
              | Raise e => (Raise e, self1)
              end
          | Raise e => (Raise e, self1)
          end
        else
          (Ok tt, mk (_limit self1) (reset_rate self1) (_start self1) (_sum self1 + len data))
      else (Ok tt, self)
  | None => (Ok tt, self)
  end.

End FloatThrottle.

(** ** class StreamThrottle *)

Module StreamThrottle.

(** [def clone(self)] *)
Definition clone (self : StreamThrottleObj) : M StreamThrottleObj :=
  read_clone <- Throttle.clone (read self) ;;
  write_clone <- Throttle.clone (write self) ;;
  Asyncio.ret (mkStreamThrottle read_clone write_clone).

(** [def from_limits(cls, read_speed_limit, write_speed_limit)] *)
Definition from_limits (read_speed_limit write_speed_limit : option Z) : M StreamThrottleObj :=
  read_throttle <- Throttle.__init__ read_speed_limit Throttle.default_reset_rate ;;
  write_throttle <- Throttle.__init__ write_speed_limit Throttle.default_reset_rate ;;
  Asyncio.ret (mkStreamThrottle read_throttle write_throttle).

End StreamThrottle.

(** ** class StreamIO *)

Module StreamIO.

Record t : Type := mk {
  reader : nat;
  writer : nat;
  read_timeout : option Q;
  write_timeout : option Q
}.

(** [def __init__(self, reader, writer, *, timeout, read_timeout, write_timeout)] *)
Definition __init__ (reader writer : nat) (timeout read_timeout write_timeout : option Q) : t :=
  mk reader writer (py_or read_timeout timeout) (py_or write_timeout timeout).

(** One read of an [asyncio.StreamReader], [read(count)] or [readline()]:
    the transport decides what arrives and when, so the bytes returned are
    those the world lists for this call, whatever was asked for; at end of
    file it is the empty [bytes], at once. *)
Definition reader_read (rd : nat) : Coroutine bytes :=
  fun w =>
    let s := Asyncio.state w in
    match incoming s rd with
    | [] => Asyncio.mkPending (fun s => s) 0 (Ok []) (fun s => s)
    | (d, r) :: _ =>
        Asyncio.mkPending (fun s => s) d r
          (fun s => mkStore (throttle_at s) (dict_at s) (next_addr s)
                            (upd (incoming s) rd (tl (incoming s rd)))
                            (drains s) (written s))
    end.

(** [self.writer.write(data); await self.writer.drain()] *)
Definition writer_write_drain (wr : nat) (data : bytes) : Coroutine unit :=
  fun w =>
    let s := Asyncio.state w in
    let buffer := fun s => mkStore (throttle_at s) (dict_at s) (next_addr s) (incoming s)
                                   (drains s) (upd (written s) wr (written s wr ++ [data])) in
    match drains s wr with
    | [] => Asyncio.mkPending buffer 0 (Ok tt) (fun s => s)
    | (d, r) :: _ =>
        Asyncio.mkPending buffer d r
          (fun s => mkStore (throttle_at s) (dict_at s) (next_addr s) (incoming s)
                            (upd (drains s) wr (tl (drains s wr))) (written s))
    end.

(** [@with_timeout("read_timeout") async def readline(self)] *)
Definition readline : t -> unit -> Coroutine bytes :=
  with_timeout read_timeout (fun self _ => reader_read (reader self)).

(** [@with_timeout("read_timeout") async def read(self, count=-1)] *)
Definition read : t -> Z -> Coroutine bytes :=
  with_timeout read_timeout (fun self count => reader_read (reader self)).

(** [@with_timeout("write_timeout") async def write(self, data)] *)
Definition write : t -> bytes -> Coroutine unit :=
  with_timeout write_timeout (fun self data => writer_write_drain (writer self) data).

(** [@with_timeout("read_timeout") async def readexactly(self, count)]; a
    transport that closes early makes the read raise [IncompleteReadError]. *)
Definition readexactly : t -> Z -> Coroutine bytes :=
  with_timeout read_timeout (fun self count => reader_read (reader self)).

End StreamIO.

(** ** class ThrottleStreamIO(StreamIO) *)

(** The attribute of a [StreamThrottle] that a read or a write uses. *)
Inductive Direction : Set := Read | Write.

Definition getattr (throttle : StreamThrottleObj) (name : Direction) : addr :=
  match name with
  | Read => read throttle
  | Write => write throttle
  end.

Module ThrottleStreamIO.

Record t : Type := mk {
  base : StreamIO.t;
  throttles : addr
}.

(** The [{}] in the signature of [__init__] is evaluated once, when the
    [def] statement runs: it is one [dict] object, at this address. *)
Definition default_throttles : addr := 0%nat.

(** The store once the module is loaded: that [dict], empty. *)
Definition loaded : Store :=
  mkStore (fun _ => mkThrottle None Throttle.default_reset_rate None 0)
          (fun _ => []) 1%nat (fun _ => []) (fun _ => []) (fun _ => []).

(** [def __init__(self, *args, throttles={}, **kwargs)]; [None] stands for
    a call that leaves [throttles] out. *)
Definition __init__ (reader writer : nat) (throttles : option addr)
    (timeout read_timeout write_timeout : option Q) : t :=
  mk (StreamIO.__init__ reader writer timeout read_timeout write_timeout)
     (match throttles with
      | Some d => d
      | None => default_throttles
      end).

(** The throttles for which the loop in [wait] creates a task. *)
Definition wait_tasks (self : t) (name : Direction) (s : Store) : list addr :=
  filter (fun curr_throttle => int_truthy (Throttle.limit curr_throttle s))
         (map (fun throttle => getattr throttle name) (values (dict_at s (throttles self)))).

(** [async def wait(self, name)] *)
Definition wait (self : t) (name : Direction) : M unit :=
  fun w =>
    let tasks := map Throttle.wait (wait_tasks self name (Asyncio.state w)) in
    match tasks with
    | [] => (Ok tt, w)
    | _ :: _ => Asyncio.wait tasks w
    end.

(** [def append(self, name, data, start)] *)
Definition append (self : t) (name : Direction) (data : bytes) (start : Q) : M unit :=
  fun w =>
    for_each (values (dict_at (Asyncio.state w) (throttles self)))
             (fun throttle => Throttle.append (getattr throttle name) data start) w.

(** [async def read(self, count=-1)] *)
Definition read (self : t) (count : Z) : M bytes :=
  wait self Read ;;
  start <- _now ;;
  data <- Asyncio.await (StreamIO.read (base self) count) ;;
  append self Read data start ;;
  Asyncio.ret data.

(** [async def readline(self)] *)
Definition readline (self : t) : M bytes :=
  wait self Read ;;
  start <- _now ;;
  data <- Asyncio.await (StreamIO.readline (base self) tt) ;;
  append self Read data start ;;
  Asyncio.ret data.

(** [async def write(self, data)] *)
Definition write (self : t) (data : bytes) : M unit :=
  wait self Write ;;
  start <- _now ;;
  Asyncio.await (StreamIO.write (base self) data) ;;
  append self Write data start.

(** [def iter_by_line(self)] *)
Definition iter_by_line (self : t) : AsyncStreamIterator.t Store bytes :=
  AsyncStreamIterator.mk (readline self).

(** [def iter_by_block(self, count=DEFAULT_BLOCK_SIZE)] *)
Definition iter_by_block (self : t) (count : Z) : AsyncStreamIterator.t Store bytes :=
  AsyncStreamIterator.mk (read self count).

(** [readexactly] is not defined in [ThrottleStreamIO]: a call runs the
    method of [StreamIO]. *)
Definition readexactly (self : t) (count : Z) : M bytes :=
  Asyncio.await (StreamIO.readexactly (base self) count).

(** [self.throttles[key] = throttle], as a caller writes it. *)
Definition throttles_setitem (self : t) (key : string) (throttle : StreamThrottleObj) : M unit :=
  Asyncio.modify (fun s =>
    set_dict (throttles self) (setitem (dict_at s (throttles self)) key throttle) s).

End ThrottleStreamIO.

(** ** wrap_with_container *)

(** The Python objects that [wrap_with_container] tells apart. *)
#[warnings="-register-all"]
Inductive PyObj : Type :=
| PyStr (s : string)
| PyTuple (items : list PyObj)
| PyList (items : list PyObj)
| PyInt (n : Z)
| PyNone.

(** [isinstance(o, str)] *)
Definition isinstance_str (o : PyObj) : bool :=
  match o with PyStr _ => true | _ => false end.

(** [def wrap_with_container(o)] *)
Definition wrap_with_container (o : PyObj) : PyObj :=
  if isinstance_str o then PyTuple [o] else o.

(** [list(o)]: the elements that iterating [o] gives; a string gives its
    characters, an object that is not iterable gives [None]. *)
Definition py_list (o : PyObj) : option (list PyObj) :=
  match o with
  | PyStr s => Some (map (fun c => PyStr (String c EmptyString)) (list_ascii_of_string s))
  | PyTuple items => Some items
  | PyList items => Some items
  | PyInt _ => None
  | PyNone => None
  end.

(** ** async_enterable *)

Module AsyncEnterable.
Section Enterable.
Context {S V : Type}.

(** An async context manager: its [__aenter__], and its [__aexit__], which
    gets the exception of the body, if there is one, and whose result says
    whether that exception is to be swallowed. *)
Record ContextManager : Type := mkContextManager {
  cm_aenter : Asyncio.M S V;
  cm_aexit : option Exn -> Asyncio.M S bool
}.

(** [async with mgr as v: body(v)], for a manager with the methods [enter]
    and [exit]; [C] is what [enter] leaves on the manager for [exit]. An
    exception of [enter] skips the body and [exit]. After the body, [exit]
    runs once: if the body raised and [exit] returns a true value the
    statement ends normally, without a value of the body ([None]); if it
    returns a false one the exception of the body goes on. *)
Definition async_with {C A} (enter : Asyncio.M S (V * C))
    (exit : C -> option Exn -> Asyncio.M S bool) (body : V -> Asyncio.M S A)
    : Asyncio.M S (option A) :=
  fun w =>
    match enter w with
    | (Raise e, w1) => (Raise e, w1)
    | (Ok (v, c), w1) =>
        match body v w1 with
        | (Ok a, w2) =>
            match exit c None w2 with
            | (Ok _, w3) => (Ok (Some a), w3)
            | (Raise e', w3) => (Raise e', w3)
            end
        | (Raise e, w2) =>
            match exit c (Some e) w2 with
            | (Ok true, w3) => (Ok None, w3)
            | (Ok false, w3) => (Raise e, w3)
            | (Raise e', w3) => (Raise e', w3)
            end
        end
    end.

(** [async with mgr as v: body(v)] on a context manager itself. *)
Definition async_with_manager {A} (mgr : ContextManager) (body : V -> Asyncio.M S A)
    : Asyncio.M S (option A) :=
  async_with (v <- cm_aenter mgr ;; Asyncio.ret (v, tt)) (fun _ => cm_aexit mgr) body.

(** The methods of the [AsyncEnterableInstance] that a call of [wrapper]
    returns; [f] is the call of the wrapped factory with the same arguments. *)
Variable f : Asyncio.M S ContextManager.

(** [async def __aenter__(self)]: the second component is [self.context]. *)
Definition __aenter__ : Asyncio.M S (V * ContextManager) :=
  context <- f ;;
  v <- cm_aenter context ;;
  Asyncio.ret (v, context).

(** [async def __aexit__(self, *args, **kwargs)]: it has no [return], so
    its result is [None], a false value. *)
Definition __aexit__ (context : ContextManager) (exc : option Exn) : Asyncio.M S bool :=
  cm_aexit context exc ;;
  Asyncio.ret false.

(** [def __await__(self)] *)
Definition __await__ : Asyncio.M S ContextManager := f.

(** [async with wrapper(...) as v: body(v)] *)
Definition async_with_wrapper {A} (body : V -> Asyncio.M S A) : Asyncio.M S (option A) :=
  async_with __aenter__ __aexit__ body.

End Enterable.
Arguments ContextManager S V : clear implicits.
End AsyncEnterable.

(** ** setlocale *)

Module Locale.

(** What is global to the process: the [LC_ALL] setting and whether
    [LOCALE_LOCK] is held. *)
Record Process : Set := mkProcess {
  lc_all : string;
  lock_held : bool
}.

(** How a piece of code ends: it returns, it raises, or its thread stays
    blocked in the [acquire] of a lock that is held. *)
Inductive Outcome (A : Type) : Type :=
| Returned (a : A)
| Raised (e : string)
| Blocked.
Arguments Returned {A} a.
Arguments Raised {A} e.
Arguments Blocked {A}.

Section Setlocale.
(** The C library: the setting it makes for a locale name, or [None] when
    it refuses the name. *)
Variable c_setlocale : string -> option string.

(** [locale.setlocale(locale.LC_ALL, name)]; without [name] it is a query. *)
Definition locale_setlocale (name : option string) (p : Process) : Outcome string * Process :=
  match name with
  | None => (Returned (lc_all p), p)
  | Some n =>
      match c_setlocale n with
      | Some applied => (Returned applied, mkProcess applied (lock_held p))
      | None => (Raised "locale.Error", p)
      end
  end.

(** [with setlocale(name) as applied: body(applied)] *)
Definition setlocale {A} (name : string) (body : string -> Process -> Outcome A * Process)
    (p : Process) : Outcome A * Process :=
  if lock_held p then (Blocked, p)
  else
    let p1 := mkProcess (lc_all p) true in
    let old_locale := lc_all p1 in
    let '(r, p2) :=
      match locale_setlocale (Some name) p1 with
      | (Returned applied, p') => body applied p'
      | (Raised e, p') => (Raised e, p')
      | (Blocked, p') => (Blocked, p')
      end in
    match r with
    | Blocked => (Blocked, p2)
    | _ =>
        match locale_setlocale (Some old_locale) p2 with
        | (Raised e, p3) => (Raised e, mkProcess (lc_all p3) false)
        | (_, p3) => (r, mkProcess (lc_all p3) false)
        end
    end.

End Setlocale.
End Locale.

(** ** Vocabulary of the statements *)

(** The world that an [asyncio.sleep(d)] started in [w] leaves. *)
Definition after_sleep {S} (w : Asyncio.World S) (d : Q) : Asyncio.World S :=
  Asyncio.mkWorld (Asyncio.time w + d)
                  (Asyncio.sleeps w ++ [(Asyncio.time w, d)])
                  (Asyncio.state w).

(** A throttle that does not limit: its limit is unset or not positive. *)
Definition unlimited (th : ThrottleObj) : Prop :=
  match _limit th with
  | None => True
  | Some limit => (limit <= 0)%Z
  end.


(** From [w], successive runs of [step] return the elements [xs], in this
    order, and leave the world [w']. *)
Fixpoint yields {S T} (step : Asyncio.M S T) (w : Asyncio.World S) (xs : list T)
    (w' : Asyncio.World S) : Prop :=
  match xs with
  | [] => w' = w
  | x :: rest => exists w1, step w = (Ok x, w1) /\ yields step w1 rest w'
  end.

(** A read operation over a list of chunks still to come: each call takes
    the next one; when none is left it returns the empty [bytes]. *)
Definition replay : Asyncio.M (list bytes) bytes :=
  fun w =>
    match Asyncio.state w with
    | [] => (Ok [], w)
    | chunk :: rest =>
        (Ok chunk, Asyncio.mkWorld (Asyncio.time w) (Asyncio.sleeps w) rest)
    end.

(** A lister step for tests, over the list of elements still to come: each
    step is pending for [d] and then returns the next element; when none is
    left it raises [StopAsyncIteration] at once. *)
Definition slow_items {T} (d : Q) : AbstractAsyncLister.Method (list T) T :=
  fun _ _ w =>
    match Asyncio.state w with
    | [] => Asyncio.mkPending (fun s => s) 0 (Raise StopAsyncIteration) (fun s => s)
    | x :: _ => Asyncio.mkPending (fun s => s) d (Ok x) (fun s => tl s)
    end.

(** The number of bytes in a list of chunks. *)
Definition total_len (chunks : list bytes) : Z :=
  fold_right (fun chunk n => (len chunk + n)%Z) 0%Z chunks.

(** An operation that is pending for [d] is done before [timeout] is over. *)
Definition in_time (timeout : option Q) (d : Q) : Prop :=
  match timeout with
  | None => True
  | Some t => (0 < t)%Q /\ (d < t)%Q
  end.

(** Two stores hold the same objects and the same transports. *)
Definition same_store (s1 s2 : Store) : Prop :=
  (forall a, throttle_at s1 a = throttle_at s2 a) /\
  dict_at s1 = dict_at s2 /\
  next_addr s1 = next_addr s2 /\
  incoming s1 = incoming s2 /\
  drains s1 = drains s2 /\
  written s1 = written s2.

(** Two runs end alike: the same result at the same loop time after the
    same sleeps, over the same store. *)
Definition same_run {A} (r1 r2 : Result A * World) : Prop :=
  fst r1 = fst r2 /\
  Asyncio.time (snd r1) = Asyncio.time (snd r2) /\
  Asyncio.sleeps (snd r1) = Asyncio.sleeps (snd r2) /\
  same_store (Asyncio.state (snd r1)) (Asyncio.state (snd r2)).

(** ** Example states *)

(** [n] bytes. *)
Definition chunk (n : nat) : bytes := repeat "x"%byte n.

(** The float of the decimal literal [n / d], for [int]s that floats hold
    exactly: their quotient, rounded once. *)
Definition decimal (n d : Z) : Float.t :=
  SFdiv Float.prec Float.emax
        (binary_normalize Float.prec Float.emax n 0 false)
        (binary_normalize Float.prec Float.emax d 0 false).

(** A stream made without a [throttles] argument and without timeouts, on
    reader 0 and writer 0. *)
Definition example_stream : ThrottleStreamIO.t :=
  ThrottleStreamIO.__init__ 0 0 None None None None.

(** A run from the loaded module: two pairs are made with read limits 100
    and 200 and no write limit, and stored in the stream's [throttles] as
    [server] and [session]; 250 bytes read at loop time 5 are accounted. *)
Definition example_setup : M unit :=
  server <- StreamThrottle.from_limits (Some 100%Z) None ;;
  session <- StreamThrottle.from_limits (Some 200%Z) None ;;
  ThrottleStreamIO.throttles_setitem example_stream "server" server ;;
  ThrottleStreamIO.throttles_setitem example_stream "session" session ;;
  ThrottleStreamIO.append example_stream Read (chunk 250) 5.

(** The world that run leaves, one second later, with two bytes about to
    arrive on reader 0 after half a second. *)
Definition example_world : World :=
  Eval vm_compute in
    let s := Asyncio.state (snd (example_setup (Asyncio.mkWorld 5 [] ThrottleStreamIO.loaded))) in
    Asyncio.mkWorld 6 []
      (mkStore (throttle_at s) (dict_at s) (next_addr s)
               (upd (incoming s) 0%nat [(1 # 2, Ok ["a"%byte; "b"%byte])])
               (drains s) (written s)).


(** A lister class that wraps its [__anext__] with [with_timeout], and one
    that does not; each step takes 5. *)
Definition wrapped_lister : AbstractAsyncLister.Subclass (list Z) Z :=
  AbstractAsyncLister.mkSubclass
    (Some (with_timeout AbstractAsyncLister.timeout (slow_items 5))).

Definition plain_lister : AbstractAsyncLister.Subclass (list Z) Z :=
  AbstractAsyncLister.mkSubclass (Some (slow_items 5)).

(** * Properties *)

(** ** Arithmetic of the model *)

Lemma Qlt_bool_true (a b : Q) : Qlt_bool a b = true <-> (a < b)%Q.
Proof.
  unfold Qlt_bool. rewrite negb_true_iff.
  split; intro H.
  - apply Qnot_le_lt. intro Hle. apply Qle_bool_iff in Hle. congruence.
  - destruct (Qle_bool b a) eqn:E; [| reflexivity].
    apply Qle_bool_iff in E. exfalso. exact (Qlt_not_le _ _ H E).
Qed.

Lemma Qlt_bool_false (a b : Q) : Qlt_bool a b = false <-> (b <= a)%Q.
Proof.
  unfold Qlt_bool. rewrite negb_false_iff. apply Qle_bool_iff.
Qed.

Lemma py_max0_nonneg (x : Q) : (0 <= py_max0 x)%Q.
Proof.
  unfold py_max0. destruct (Qlt_bool 0 x) eqn:E.
  - apply Qlt_bool_true in E. apply Qlt_le_weak. exact E.
  - apply Qle_refl.
Qed.


Lemma py_round_comp (x y : Q) : x == y -> py_round x = py_round y.
Proof.
  intro E. unfold py_round.
  assert (Ef : Qfloor x = Qfloor y) by now rewrite E.
  rewrite Ef.
  assert (Ec : Qcompare (x - inject_Z (Qfloor y)) (1 # 2) =
               Qcompare (y - inject_Z (Qfloor y)) (1 # 2)) by now rewrite E.
  rewrite Ec. reflexivity.
Qed.



Lemma upd_same {A} (f : addr -> A) (a : addr) (v : A) : upd f a v a = v.
Proof. unfold upd. now rewrite Nat.eqb_refl. Qed.

Lemma upd_other {A} (f : addr -> A) (a b : addr) (v : A) : b <> a -> upd f a v b = f b.
Proof. intro H. unfold upd. apply Nat.eqb_neq in H. now rewrite H. Qed.

(** ** Throttle *)

(** C1 (as amended). [Throttle.wait] returns at once, without calling
    [asyncio.sleep], when the throttle is unlimited (limit unset or not
    positive) and also when the window start is unset. Otherwise, with the
    window start [start], the accumulated count [_sum] and the limit [limit]
    of the current state and the current clock reading [time w], it sleeps
    once, for exactly [max(0, (start + _sum/limit) - now)]. In every case
    the store, and so every throttle, is left as it was. *)
Theorem C1_wait_sleeps_only_with_window_start :
  forall (self : addr) (w : World),
    let th := throttle_at (Asyncio.state w) self in
    (unlimited th \/ _start th = None -> Throttle.wait self w = (Ok tt, w)) /\
    (forall limit start,
        _limit th = Some limit -> (0 < limit)%Z -> _start th = Some start ->
        Throttle.wait self w =
        (Ok tt, after_sleep w (py_max0 (start + inject_Z (_sum th) / inject_Z limit
                                        - Asyncio.time w)))) /\
    Asyncio.state (snd (Throttle.wait self w)) = Asyncio.state w.
Proof.
  intros self w th. unfold Throttle.wait. fold th.
  repeat split.
  - intros [Hu | Hs].
    + unfold unlimited in Hu. destruct (_limit th) as [l |]; [| reflexivity].
      destruct (_start th); [| reflexivity].
      destruct (0 <? l)%Z eqn:E; [| reflexivity].
      apply Z.ltb_lt in E. lia.
    + rewrite Hs. destruct (_limit th); reflexivity.
  - intros limit start Hl Hpos Hs. rewrite Hl, Hs.
    apply Z.ltb_lt in Hpos. rewrite Hpos. reflexivity.
  - destruct (_limit th) as [l |]; [| reflexivity].
    destruct (_start th); [| reflexivity].
    destruct (0 <? l)%Z; reflexivity.
Qed.

Lemma C1_wait_sleeps_only_with_window_start_witness :
  Throttle.wait 2%nat example_world = (Ok tt, example_world) /\
  Throttle.wait 1%nat example_world =
  (Ok tt, after_sleep example_world (py_max0 (5 + inject_Z 250 / inject_Z 100 - 6))).
Proof.
  split.
  - apply (proj1 (C1_wait_sleeps_only_with_window_start 2%nat example_world)).
    left. exact I.
  - apply (proj1 (proj2 (C1_wait_sleeps_only_with_window_start 1%nat example_world))
             100%Z 5); [reflexivity | lia | reflexivity].
Defined.

(** C1 as stated fails: a throttle with the positive limit 100 whose window
    start is unset is not unlimited, yet [wait] does not sleep for any
    duration, it returns at once. *)
Lemma C1_counterexample_unset_window_start :
  let th := mkThrottle (Some 100%Z) 10 None 0 in
  let w := Asyncio.mkWorld 5 [] (set_throttle 1%nat th ThrottleStreamIO.loaded) in
  ~ unlimited th /\
  _start th = None /\
  Throttle.wait 1%nat w = (Ok tt, w) /\
  ~ (exists d, Throttle.wait 1%nat w = (Ok tt, after_sleep w d)).
Proof.
  intros th w. repeat split.
  - unfold unlimited, th. simpl. lia.
  - intros [d H]. vm_compute in H. discriminate H.
Qed.

Lemma append_obj_limited (th : ThrottleObj) (data : bytes) (start : Q) (limit : Z) (start0 : Q) :
  _limit th = Some limit -> (0 < limit)%Z -> _start th = Some start0 ->
  Throttle.append_obj th data start =
  if Qlt_bool (reset_rate th) (start - start0)
  then mkThrottle (_limit th) (reset_rate th) (Some start)
         (_sum th - py_round ((start - start0) * inject_Z limit) + len data)
  else mkThrottle (_limit th) (reset_rate th) (Some start0) (_sum th + len data).
Proof.
  intros Hl Hpos Hs. unfold Throttle.append_obj.
  rewrite Hl. apply Z.ltb_lt in Hpos. rewrite Hpos. rewrite Hs. simpl.
  rewrite Hs.
  destruct (Qlt_bool (reset_rate th) (start - start0));
    unfold Throttle.with_sum, Throttle.with_start; simpl; rewrite ?Hl, ?Hs; reflexivity.
Qed.

Lemma append_obj_unlimited (th : ThrottleObj) (data : bytes) (start : Q) :
  unlimited th -> Throttle.append_obj th data start = th.
Proof.
  unfold unlimited, Throttle.append_obj. destruct (_limit th) as [l |]; [| reflexivity].
  intro H. destruct (0 <? l)%Z eqn:E; [| reflexivity].
  apply Z.ltb_lt in E. lia.
Qed.

Lemma append_at_self (self : addr) (data : bytes) (start : Q) (w : World) :
  throttle_at (Asyncio.state (snd (Throttle.append self data start w))) self =
  Throttle.append_obj (throttle_at (Asyncio.state w) self) data start.
Proof. simpl. apply upd_same. Qed.

Lemma value_le_not_gt (a b : Float.Value) :
  Float.value_le a b = true -> Float.value_gt a b = false.
Proof.
  destruct a as [| sa | x]; destruct b as [| sb | y]; simpl; try discriminate;
    try (destruct sa; try destruct sb; simpl; congruence).
  - destruct sb; simpl; congruence.
  - unfold Qlt_bool. intros ->. reflexivity.
Qed.

(** C2. For a throttle with a positive limit and the window start set,
    [append(data, start)] with [start - windowStart > reset_rate] leaves
    [_sum] at [prior - round((start - windowStart) * limit) + len(data)] and
    the window start at [start]; with [start - windowStart <= reset_rate]
    it adds [len(data)] to [_sum] and leaves the window start as it was.
    The difference, the comparison, the product and [round] are those of
    floats, and the call returns whenever the product has a value to
    round. *)
Theorem C2_append_drift_correction :
  forall (self : FloatThrottle.t) (data : bytes) (start start0 : Float.t) (limit : Z),
    FloatThrottle._limit self = Some limit -> (0 < limit)%Z ->
    FloatThrottle._start self = Some start0 ->
    let elapsed := Float.sub start start0 in
    let reset_rate := FloatThrottle.reset_rate self in
    (Float.gt elapsed reset_rate = true ->
     forall rate n,
       Float.of_int limit = Ok rate ->
       Float.round (Float.mul elapsed rate) = Ok n ->
       FloatThrottle.append self data start =
       (Ok tt,
        FloatThrottle.mk (Some limit) reset_rate (Some start)
                         (FloatThrottle._sum self - n + len data))) /\
    (Float.le elapsed reset_rate = true ->
     FloatThrottle.append self data start =
     (Ok tt,
      FloatThrottle.mk (Some limit) reset_rate (Some start0)
                       (FloatThrottle._sum self + len data))).
Proof.
  intros self data start start0 limit Hl Hpos Hs elapsed reset_rate.
  destruct self as [l r st sum].
  cbn [FloatThrottle._limit FloatThrottle._start FloatThrottle.reset_rate
       FloatThrottle._sum] in *.
  subst l st reset_rate. unfold FloatThrottle.append.
  cbn [FloatThrottle._limit FloatThrottle._start FloatThrottle.reset_rate
       FloatThrottle._sum].
  apply Z.ltb_lt in Hpos. rewrite Hpos. fold elapsed. split.
  - intros Hgt rate n Hrate Hn. rewrite Hgt, Hrate, Hn. reflexivity.
  - intro Hle. unfold Float.gt. unfold Float.le in Hle.
    rewrite (value_le_not_gt _ _ Hle). reflexivity.
Qed.

Lemma C2_append_drift_correction_witness :
  FloatThrottle.append (FloatThrottle.mk (Some 10%Z) (Float.Int 10) (Some (decimal 0 1)) 0)
                       (chunk 3) (decimal 1695 100) =
  (Ok tt, FloatThrottle.mk (Some 10%Z) (Float.Int 10) (Some (decimal 1695 100)) (-167)) /\
  FloatThrottle.append (FloatThrottle.mk (Some 10%Z) (Float.Int 10) (Some (decimal 3 10)) 0)
                       (chunk 3) (decimal 103 10) =
  (Ok tt, FloatThrottle.mk (Some 10%Z) (Float.Int 10) (Some (decimal 3 10)) 3) /\
  FloatThrottle.append
    (FloatThrottle.mk (Some (2 ^ 64 + 1)%Z) (Float.Real (decimal 10 1)) (Some (decimal 0 1)) 0)
    (chunk 3) (decimal 21 2) =
  (Ok tt,
   FloatThrottle.mk (Some (2 ^ 64 + 1)%Z) (Float.Real (decimal 10 1)) (Some (decimal 21 2))
                    (- (21 * 2 ^ 63) + 3)).
Proof.
  split; [| split].
  - apply (proj1 (C2_append_drift_correction
                    (FloatThrottle.mk (Some 10%Z) (Float.Int 10) (Some (decimal 0 1)) 0)
                    (chunk 3) (decimal 1695 100) (decimal 0 1) 10%Z
                    eq_refl eq_refl eq_refl)
             eq_refl (decimal 10 1) 170%Z);
      vm_compute; reflexivity.
  - apply (proj2 (C2_append_drift_correction
                    (FloatThrottle.mk (Some 10%Z) (Float.Int 10) (Some (decimal 3 10)) 0)
                    (chunk 3) (decimal 103 10) (decimal 3 10) 10%Z
                    eq_refl eq_refl eq_refl)).
    vm_compute. reflexivity.
  - apply (proj1 (C2_append_drift_correction
                    (FloatThrottle.mk (Some (2 ^ 64 + 1)%Z) (Float.Real (decimal 10 1))
                                      (Some (decimal 0 1)) 0)
                    (chunk 3) (decimal 21 2) (decimal 0 1) (2 ^ 64 + 1)%Z
                    eq_refl eq_refl eq_refl)
             eq_refl (decimal (2 ^ 64) 1) (21 * 2 ^ 63)%Z);
      vm_compute; reflexivity.
Defined.

Lemma Qlt_bool_comp_r (r x y : Q) : x == y -> Qlt_bool r x = Qlt_bool r y.
Proof.
  intro E. destruct (Qlt_bool r y) eqn:E2.
  - apply Qlt_bool_true. apply Qlt_bool_true in E2. now rewrite E.
  - apply Qlt_bool_false. apply Qlt_bool_false in E2. now rewrite E.
Qed.

(** Where the float subtraction and the float product of [append] are
    exact, [FloatThrottle.append] stores what [Throttle.append_obj] stores
    on the exact clock. *)
Lemma float_append_where_exact (limit : Z) (r : Float.Number) (start0 start : Float.t)
    (sum : Z) (data : bytes) (q0 q qr elapsed product : Q) (rate : Float.t) :
  (0 < limit)%Z ->
  Float.number_value r = Float.Finite qr ->
  Float.value (Float.sub start start0) = Float.Finite elapsed ->
  elapsed == q - q0 ->
  Float.of_int limit = Ok rate ->
  Float.value (Float.mul (Float.sub start start0) rate) = Float.Finite product ->
  product == (q - q0) * inject_Z limit ->
  let th := Throttle.append_obj (mkThrottle (Some limit) qr (Some q0) sum) data q in
  exists start',
    FloatThrottle.append (FloatThrottle.mk (Some limit) r (Some start0) sum) data start =
    (Ok tt, FloatThrottle.mk (Some limit) r (Some start') (_sum th)) /\
    ((start' = start /\ _start th = Some q) \/ (start' = start0 /\ _start th = Some q0)).
Proof.
  intros Hpos Hr Hsub He Hrate Hmul Hp th. unfold th.
  rewrite (append_obj_limited (mkThrottle (Some limit) qr (Some q0) sum) data q limit q0
             eq_refl Hpos eq_refl).
  cbn [reset_rate _limit _sum].
  unfold FloatThrottle.append.
  cbn [FloatThrottle._limit FloatThrottle._start FloatThrottle.reset_rate
       FloatThrottle._sum].
  apply Z.ltb_lt in Hpos. rewrite Hpos.
  unfold Float.gt, Float.round. rewrite Hsub, Hr. cbn [Float.value_gt].
  rewrite (Qlt_bool_comp_r qr _ _ He).
  destruct (Qlt_bool qr (q - q0)).
  - rewrite Hrate, Hmul. rewrite (py_round_comp _ _ Hp).
    exists start. split; [reflexivity | left; split; reflexivity].
  - exists start0. split; [reflexivity | right; split; reflexivity].
Qed.

(** C5. Assigning to the [limit] property sets the limit, unsets the window
    start and zeroes the accumulated count, whatever the state was; a
    [wait] right after it returns without sleeping. *)
Theorem C5_set_limit_forgets_history :
  forall (self : addr) (value : option Z) (w : World),
    let w1 := snd (Throttle.set_limit self value w) in
    let th1 := throttle_at (Asyncio.state w1) self in
    _limit th1 = value /\
    _start th1 = None /\
    _sum th1 = 0%Z /\
    reset_rate th1 = reset_rate (throttle_at (Asyncio.state w) self) /\
    Throttle.wait self w1 = (Ok tt, w1).
Proof.
  intros self value w w1 th1.
  assert (E : th1 = mkThrottle value (reset_rate (throttle_at (Asyncio.state w) self)) None 0).
  { unfold th1, w1. simpl. apply upd_same. }
  rewrite E. simpl. repeat split.
  unfold Throttle.wait. fold th1. rewrite E. simpl.
  destruct value; reflexivity.
Qed.

Lemma clone_run (self : addr) (w : World) :
  Throttle.clone self w =
  (Ok (next_addr (Asyncio.state w)),
   Asyncio.mkWorld (Asyncio.time w) (Asyncio.sleeps w)
     (mkStore
        (upd (throttle_at (Asyncio.state w)) (next_addr (Asyncio.state w))
             (mkThrottle (_limit (throttle_at (Asyncio.state w) self))
                         (reset_rate (throttle_at (Asyncio.state w) self)) None 0))
        (dict_at (Asyncio.state w)) (S (next_addr (Asyncio.state w)))
        (incoming (Asyncio.state w)) (drains (Asyncio.state w))
        (written (Asyncio.state w)))).
Proof. reflexivity. Qed.

(** C6. [clone()] of a throttle returns a new object, at an address that no
    object had before, with the limit and the reset rate of the original,
    the window start unset and the accumulated count zero, whatever the
    original has accumulated; every object that existed, the original
    among them, is left as it was. [clone()] of a pair does this for the
    read side and for the write side, giving two new objects. *)
Theorem C6_clone_is_memoryless :
  forall (w : World),
    let n := next_addr (Asyncio.state w) in
    (forall self : addr,
        (self < n)%nat ->
        let th := throttle_at (Asyncio.state w) self in
        let w' := snd (Throttle.clone self w) in
        fst (Throttle.clone self w) = Ok n /\
        throttle_at (Asyncio.state w') n = mkThrottle (_limit th) (reset_rate th) None 0 /\
        throttle_at (Asyncio.state w') self = th /\
        (forall a, (a < n)%nat ->
                   throttle_at (Asyncio.state w') a = throttle_at (Asyncio.state w) a)) /\
    (forall pair : StreamThrottleObj,
        (read pair < n)%nat -> (write pair < n)%nat ->
        let r := throttle_at (Asyncio.state w) (read pair) in
        let wr := throttle_at (Asyncio.state w) (write pair) in
        let w' := snd (StreamThrottle.clone pair w) in
        fst (StreamThrottle.clone pair w) = Ok (mkStreamThrottle n (S n)) /\
        throttle_at (Asyncio.state w') n = mkThrottle (_limit r) (reset_rate r) None 0 /\
        throttle_at (Asyncio.state w') (S n) = mkThrottle (_limit wr) (reset_rate wr) None 0 /\
        (forall a, (a < n)%nat ->
                   throttle_at (Asyncio.state w') a = throttle_at (Asyncio.state w) a)).
Proof.
  intros w n. split.
  - intros self Hself th w'. unfold w'. rewrite clone_run. simpl. fold n.
    repeat split.
    + apply upd_same.
    + apply upd_other. lia.
    + intros a Ha. apply upd_other. lia.
  - intros pair Hr Hw r wr w'. unfold w', StreamThrottle.clone, Asyncio.bind.
    rewrite clone_run. rewrite clone_run. simpl. fold n.
    repeat split.
    + rewrite upd_other by lia. apply upd_same.
    + rewrite upd_same. rewrite upd_other by lia. reflexivity.
    + intros a Ha. rewrite !upd_other by lia. reflexivity.
Qed.

Lemma C6_clone_is_memoryless_witness :
  let w' := snd (Throttle.clone 1%nat example_world) in
  let w'' := snd (StreamThrottle.clone (mkStreamThrottle 1%nat 2%nat) example_world) in
  (fst (Throttle.clone 1%nat example_world) = Ok 5%nat /\
   throttle_at (Asyncio.state w') 5%nat = mkThrottle (Some 100%Z) 10 None 0 /\
   throttle_at (Asyncio.state w') 1%nat = mkThrottle (Some 100%Z) 10 (Some 5) 250) /\
  (fst (StreamThrottle.clone (mkStreamThrottle 1%nat 2%nat) example_world) = Ok (mkStreamThrottle 5%nat 6%nat) /\
   throttle_at (Asyncio.state w'') 5%nat = mkThrottle (Some 100%Z) 10 None 0 /\
   throttle_at (Asyncio.state w'') 6%nat = mkThrottle None 10 None 0).
Proof.
  intros w' w''. split.
  - pose proof (proj1 (C6_clone_is_memoryless example_world) 1%nat
                  ltac:(simpl; lia)) as (H1 & H2 & H3 & _).
    exact (conj H1 (conj H2 H3)).
  - pose proof (proj2 (C6_clone_is_memoryless example_world)
                  (mkStreamThrottle 1%nat 2%nat)
                  ltac:(simpl; lia) ltac:(simpl; lia)) as (H1 & H2 & H3 & _).
    exact (conj H1 (conj H2 H3)).
Defined.

(** ** StreamIO *)

Lemma StreamIO_init_timeouts (reader writer : nat) (timeout read_timeout write_timeout : option Q) :
  let self := StreamIO.__init__ reader writer timeout read_timeout write_timeout in
  StreamIO.read_timeout self = (if num_truthy read_timeout then read_timeout else timeout) /\
  StreamIO.write_timeout self = (if num_truthy write_timeout then write_timeout else timeout).
Proof. split; reflexivity. Qed.

(** C9 at its failing input. With [timeout=5], [read_timeout=0] and
    [write_timeout=0], both timeouts were supplied, yet the stream's read
    timeout and write timeout are 5: [0 or 5] is [5]. *)
Theorem C9_zero_timeout_is_replaced :
  forall reader writer : nat,
    let self := StreamIO.__init__ reader writer (Some 5) (Some 0) (Some 0) in
    StreamIO.read_timeout self = Some 5 /\ StreamIO.read_timeout self <> Some 0 /\
    StreamIO.write_timeout self = Some 5 /\ StreamIO.write_timeout self <> Some 0.
Proof.
  intros reader writer self. repeat split; try reflexivity; discriminate.
Qed.

(** ** ThrottleStreamIO: waiting *)

Lemma later_cases (a b : Q) : (later a b = a /\ (b <= a)%Q) \/ (later a b = b /\ (a <= b)%Q).
Proof.
  unfold later. destruct (Qle_bool a b) eqn:E.
  - right. split; [reflexivity | now apply Qle_bool_iff].
  - left. split; [reflexivity |].
    apply Qlt_le_weak. apply Qnot_le_lt. intro H. apply Qle_bool_iff in H. congruence.
Qed.

Lemma later_ge_l (a b : Q) : (a <= later a b)%Q.
Proof. destruct (later_cases a b) as [[-> H] | [-> H]]; [apply Qle_refl | exact H]. Qed.

Lemma later_ge_r (a b : Q) : (b <= later a b)%Q.
Proof. destruct (later_cases a b) as [[-> H] | [-> H]]; [exact H | apply Qle_refl]. Qed.

Lemma wait_cases (self : addr) (w : World) :
  Throttle.wait self w = (Ok tt, w) \/
  exists d, (0 <= d)%Q /\ Throttle.wait self w = (Ok tt, after_sleep w d).
Proof.
  unfold Throttle.wait.
  destruct (_limit (throttle_at (Asyncio.state w) self)) as [l |]; [| now left].
  destruct (_start (throttle_at (Asyncio.state w) self)) as [s |]; [| now left].
  destruct (0 <? l)%Z; [| now left].
  right. eexists. split; [apply py_max0_nonneg | reflexivity].
Qed.

Lemma wait_state (self : addr) (w : World) :
  Asyncio.state (snd (Throttle.wait self w)) = Asyncio.state w.
Proof.
  destruct (wait_cases self w) as [-> | [d [_ ->]]]; reflexivity.
Qed.


Lemma wait_time_indep (a : addr) (w1 w2 : World) :
  Asyncio.time w1 = Asyncio.time w2 -> Asyncio.state w1 = Asyncio.state w2 ->
  Asyncio.time (snd (Throttle.wait a w1)) = Asyncio.time (snd (Throttle.wait a w2)).
Proof.
  intros Ht Hs. unfold Throttle.wait. rewrite Hs.
  destruct (_limit (throttle_at (Asyncio.state w2) a)) as [l |]; [| exact Ht].
  destruct (_start (throttle_at (Asyncio.state w2) a)) as [s |]; [| exact Ht].
  destruct (0 <? l)%Z; [| exact Ht].
  simpl. rewrite Ht. reflexivity.
Qed.

Lemma wait_sleeps (a : addr) (w : World) :
  exists started,
    Asyncio.sleeps (snd (Throttle.wait a w)) = Asyncio.sleeps w ++ started /\
    forall t0 d, In (t0, d) started -> t0 = Asyncio.time w.
Proof.
  destruct (wait_cases a w) as [-> | [d [_ ->]]].
  - exists []. split; [symmetry; apply app_nil_r | intros ? ? []].
  - exists [(Asyncio.time w, d)]. split; [reflexivity |].
    intros t0 d0 [H | []]. congruence.
Qed.

Lemma run_tasks_spec (addrs : list addr) :
  forall (c latest : Q) (w : World),
    let w' := Asyncio.run_tasks c (map Throttle.wait addrs) latest w in
    Asyncio.state w' = Asyncio.state w /\
    (exists started,
        Asyncio.sleeps w' = Asyncio.sleeps w ++ started /\
        forall t0 d, In (t0, d) started -> t0 = c) /\
    (latest <= Asyncio.time w')%Q /\
    (forall a, In a addrs ->
       (Asyncio.time (snd (Throttle.wait a (Asyncio.set_time c w))) <= Asyncio.time w')%Q) /\
    (Asyncio.time w' = latest \/
     exists a, In a addrs /\
       Asyncio.time w' = Asyncio.time (snd (Throttle.wait a (Asyncio.set_time c w)))).
Proof.
  induction addrs as [| a rest IH]; intros c latest w w'.
  - simpl in w'. unfold w'. simpl. repeat split.
    + exists []. split; [symmetry; apply app_nil_r | intros ? ? []].
    + apply Qle_refl.
    + intros a [].
    + now left.
  - simpl in w'.
    set (w1 := snd (Throttle.wait a (Asyncio.set_time c w))) in *.
    specialize (IH c (later latest (Asyncio.time w1)) w1).
    cbv zeta in IH. fold w' in IH.
    destruct IH as (Hst & (started & Hsl & Hat) & Hlat & Hall & Hone).
    assert (Hs1 : Asyncio.state w1 = Asyncio.state w).
    { unfold w1. now rewrite wait_state. }
    assert (Hindep : forall b,
               Asyncio.time (snd (Throttle.wait b (Asyncio.set_time c w1))) =
               Asyncio.time (snd (Throttle.wait b (Asyncio.set_time c w)))).
    { intro b. apply wait_time_indep; [reflexivity | exact Hs1]. }
    repeat split.
    + rewrite Hst. exact Hs1.
    + destruct (wait_sleeps a (Asyncio.set_time c w)) as (st1 & Hsl1 & Hat1).
      fold w1 in Hsl1. simpl in Hsl1, Hat1.
      exists (st1 ++ started). split.
      * rewrite Hsl, Hsl1. symmetry. apply app_assoc.
      * intros t0 d Hin. apply in_app_or in Hin. destruct Hin; eauto.
    + eapply Qle_trans; [apply later_ge_l | exact Hlat].
    + intros b [<- | Hb].
      * eapply Qle_trans; [apply later_ge_r | exact Hlat].
      * rewrite <- Hindep. now apply Hall.
    + destruct Hone as [Hone | (b & Hb & Hone)].
      * destruct (later_cases latest (Asyncio.time w1)) as [[E _] | [E _]].
        -- left. rewrite Hone. exact E.
        -- right. exists a. split; [now left | rewrite Hone; exact E].
      * right. exists b. split; [now right | now rewrite <- Hindep].
Qed.

Lemma wait_limited (self : addr) (w : World) (limit : Z) (start : Q) :
  let th := throttle_at (Asyncio.state w) self in
  _limit th = Some limit -> (0 < limit)%Z -> _start th = Some start ->
  Throttle.wait self w =
  (Ok tt, after_sleep w (py_max0 (start + inject_Z (_sum th) / inject_Z limit
                                  - Asyncio.time w))).
Proof.
  intros th Hl Hpos Hs. unfold Throttle.wait. fold th. rewrite Hl, Hs.
  apply Z.ltb_lt in Hpos. rewrite Hpos. reflexivity.
Qed.

Lemma stream_wait_run (self : ThrottleStreamIO.t) (name : Direction) (w : World) :
  ThrottleStreamIO.wait self name w = (Ok tt, snd (ThrottleStreamIO.wait self name w)).
Proof.
  unfold ThrottleStreamIO.wait.
  destruct (map Throttle.wait (ThrottleStreamIO.wait_tasks self name (Asyncio.state w)));
    reflexivity.
Qed.

Lemma set_time_same (a : addr) (w : World) :
  Asyncio.time (snd (Throttle.wait a (Asyncio.set_time (Asyncio.time w) w))) =
  Asyncio.time (snd (Throttle.wait a w)).
Proof. apply wait_time_indep; reflexivity. Qed.

Lemma stream_wait_spec (self : ThrottleStreamIO.t) (name : Direction) (w : World) :
  let tasks := ThrottleStreamIO.wait_tasks self name (Asyncio.state w) in
  let w' := snd (ThrottleStreamIO.wait self name w) in
  Asyncio.state w' = Asyncio.state w /\
  (exists started,
      Asyncio.sleeps w' = Asyncio.sleeps w ++ started /\
      forall t0 d, In (t0, d) started -> t0 = Asyncio.time w) /\
  (Asyncio.time w <= Asyncio.time w')%Q /\
  (forall a, In a tasks ->
             (Asyncio.time (snd (Throttle.wait a w)) <= Asyncio.time w')%Q) /\
  (Asyncio.time w' = Asyncio.time w \/
   exists a, In a tasks /\ Asyncio.time w' = Asyncio.time (snd (Throttle.wait a w))).
Proof.
  intros tasks w'. unfold w', ThrottleStreamIO.wait. fold tasks.
  destruct tasks as [| a rest] eqn:E.
  - simpl. repeat split.
    + exists []. split; [symmetry; apply app_nil_r | intros ? ? []].
    + apply Qle_refl.
    + intros a [].
    + now left.
  - change (map Throttle.wait (a :: rest)) with (Throttle.wait a :: map Throttle.wait rest).
    cbv iota beta.
    change (Throttle.wait a :: map Throttle.wait rest) with (map Throttle.wait (a :: rest)).
    unfold Asyncio.wait. cbn [snd].
    destruct (run_tasks_spec (a :: rest) (Asyncio.time w) (Asyncio.time w) w)
      as (Hst & Hsl & Hlat & Hall & Hone).
    repeat split; try assumption.
    + intros b Hb. rewrite <- set_time_same. now apply Hall.
    + destruct Hone as [Hone | (b & Hb & Hone)]; [now left |].
      right. exists b. split; [exact Hb |]. rewrite Hone. apply set_time_same.
Qed.

Lemma wait_tasks_In (self : ThrottleStreamIO.t) (name : Direction) (s : Store) (a : addr) :
  In a (ThrottleStreamIO.wait_tasks self name s) <->
  exists throttle,
    In throttle (values (dict_at s (ThrottleStreamIO.throttles self))) /\
    a = getattr throttle name /\
    exists limit, Throttle.limit a s = Some limit /\ limit <> 0%Z.
Proof.
  unfold ThrottleStreamIO.wait_tasks. rewrite filter_In, in_map_iff.
  unfold int_truthy. split.
  - intros [(p & Hp & Hin) Ht]. exists p. repeat split; [exact Hin | now symmetry |].
    destruct (Throttle.limit a s) as [l |]; [| discriminate].
    exists l. split; [reflexivity |].
    apply negb_true_iff in Ht. now apply Z.eqb_neq.
  - intros (p & Hin & -> & l & Hl & Hnz). split.
    + exists p. split; [reflexivity | exact Hin].
    + rewrite Hl. apply negb_true_iff. now apply Z.eqb_neq.
Qed.

(** Accounting through the stream. *)

Lemma iter_shift {A} (f : A -> A) (n : nat) (x : A) : Nat.iter n f (f x) = f (Nat.iter n f x).
Proof. induction n as [| n IH]; simpl; [reflexivity | now rewrite IH]. Qed.

Lemma for_each_append (name : Direction) (data : bytes) (start : Q)
    (ps : list StreamThrottleObj) :
  forall w : World,
    let sides := map (fun throttle => getattr throttle name) ps in
    let run := for_each ps (fun throttle => Throttle.append (getattr throttle name) data start) w in
    fst run = Ok tt /\
    Asyncio.time (snd run) = Asyncio.time w /\
    Asyncio.sleeps (snd run) = Asyncio.sleeps w /\
    dict_at (Asyncio.state (snd run)) = dict_at (Asyncio.state w) /\
    forall a,
      throttle_at (Asyncio.state (snd run)) a =
      Nat.iter (count_occ Nat.eq_dec sides a)
               (fun th => Throttle.append_obj th data start)
               (throttle_at (Asyncio.state w) a).
Proof.
  induction ps as [| p rest IH]; intros w sides run.
  - unfold run. simpl. repeat split.
  - unfold run. simpl for_each. unfold Asyncio.bind.
    unfold Throttle.append at 1. unfold Asyncio.modify.
    set (w1 := Asyncio.mkWorld _ _ _).
    specialize (IH w1). cbv zeta in IH.
    destruct IH as (Hok & Ht & Hsl & Hd & Hth).
    repeat split; try assumption.
    intro a. rewrite Hth. unfold sides. simpl map. simpl count_occ.
    unfold w1. simpl. unfold upd.
    destruct (Nat.eq_dec (getattr p name) a) as [E | E].
    + subst a. rewrite Nat.eqb_refl. simpl.
      exact (iter_shift (fun th => Throttle.append_obj th data start) _ _).
    + assert (E' : Nat.eqb a (getattr p name) = false) by (apply Nat.eqb_neq; congruence).
      rewrite E'. reflexivity.
Qed.

Lemma stream_append_spec (self : ThrottleStreamIO.t) (name : Direction) (data : bytes)
    (start : Q) (w : World) :
  let sides := map (fun throttle => getattr throttle name)
                   (values (dict_at (Asyncio.state w) (ThrottleStreamIO.throttles self))) in
  let run := ThrottleStreamIO.append self name data start w in
  fst run = Ok tt /\
  Asyncio.time (snd run) = Asyncio.time w /\
  Asyncio.sleeps (snd run) = Asyncio.sleeps w /\
  dict_at (Asyncio.state (snd run)) = dict_at (Asyncio.state w) /\
  forall a,
    throttle_at (Asyncio.state (snd run)) a =
    Nat.iter (count_occ Nat.eq_dec sides a)
             (fun th => Throttle.append_obj th data start)
             (throttle_at (Asyncio.state w) a).
Proof.
  intros sides run. unfold run, ThrottleStreamIO.append.
  apply (for_each_append name data start).
Qed.

Lemma stream_append_run (self : ThrottleStreamIO.t) (name : Direction) (data : bytes)
    (start : Q) (w : World) :
  ThrottleStreamIO.append self name data start w =
  (Ok tt, snd (ThrottleStreamIO.append self name data start w)).
Proof.
  pose proof (stream_append_spec self name data start w) as H. cbv zeta in H.
  destruct H as [H _].
  destruct (ThrottleStreamIO.append self name data start w) as [r w']. simpl in *.
  now subst r.
Qed.










(** ** ThrottleStreamIO: accounting *)

(** C4. In [read], [readline] and [write] of a [ThrottleStreamIO] the start
    time is the loop time at which the wait is over, which is the time at
    which the raw operation of [StreamIO] begins. If that operation raises,
    nothing is accounted. If it completes, [append] then runs in the world
    that the operation left, with that start time and with exactly the bytes
    that the read returned or that were passed to the write, whatever count
    was asked for. [append] applies [Throttle.append] to the side of the
    direction once for every named pair, limited or not, and touches
    nothing else; on a side without a limit it changes nothing. *)
Theorem C4_accounting_follows_the_io :
  forall (self : ThrottleStreamIO.t) (w : World),
    (forall count,
        let w1 := snd (ThrottleStreamIO.wait self Read w) in
        let start := Asyncio.time w1 in
        match Asyncio.await (StreamIO.read (ThrottleStreamIO.base self) count) w1 with
        | (Ok data, w2) =>
            ThrottleStreamIO.read self count w =
            (Ok data, snd (ThrottleStreamIO.append self Read data start w2))
        | (Raise e, w2) => ThrottleStreamIO.read self count w = (Raise e, w2)
        end) /\
    (let w1 := snd (ThrottleStreamIO.wait self Read w) in
     let start := Asyncio.time w1 in
     match Asyncio.await (StreamIO.readline (ThrottleStreamIO.base self) tt) w1 with
     | (Ok data, w2) =>
         ThrottleStreamIO.readline self w =
         (Ok data, snd (ThrottleStreamIO.append self Read data start w2))
     | (Raise e, w2) => ThrottleStreamIO.readline self w = (Raise e, w2)
     end) /\
    (forall data,
        let w1 := snd (ThrottleStreamIO.wait self Write w) in
        let start := Asyncio.time w1 in
        match Asyncio.await (StreamIO.write (ThrottleStreamIO.base self) data) w1 with
        | (Ok _, w2) =>
            ThrottleStreamIO.write self data w =
            (Ok tt, snd (ThrottleStreamIO.append self Write data start w2))
        | (Raise e, w2) => ThrottleStreamIO.write self data w = (Raise e, w2)
        end) /\
    (forall name data start,
        let sides := map (fun throttle => getattr throttle name)
                         (values (dict_at (Asyncio.state w) (ThrottleStreamIO.throttles self))) in
        let w3 := snd (ThrottleStreamIO.append self name data start w) in
        Asyncio.time w3 = Asyncio.time w /\
        Asyncio.sleeps w3 = Asyncio.sleeps w /\
        dict_at (Asyncio.state w3) = dict_at (Asyncio.state w) /\
        (forall a,
            throttle_at (Asyncio.state w3) a =
            Nat.iter (count_occ Nat.eq_dec sides a)
                     (fun th => Throttle.append_obj th data start)
                     (throttle_at (Asyncio.state w) a)) /\
        (forall throttle,
            In throttle (values (dict_at (Asyncio.state w) (ThrottleStreamIO.throttles self))) ->
            (1 <= count_occ Nat.eq_dec sides (getattr throttle name))%nat)) /\
    (forall th data start, unlimited th -> Throttle.append_obj th data start = th).
Proof.
  intros self w. split; [| split; [| split; [| split]]].
  - intros count w1 start.
    unfold ThrottleStreamIO.read, Asyncio.bind, _now.
    rewrite stream_wait_run. cbv beta iota. fold w1. fold start.
    destruct (Asyncio.await (StreamIO.read (ThrottleStreamIO.base self) count) w1)
      as [[data | e] w2]; [| reflexivity].
    rewrite stream_append_run. reflexivity.
  - intros w1 start.
    unfold ThrottleStreamIO.readline, Asyncio.bind, _now.
    rewrite stream_wait_run. cbv beta iota. fold w1. fold start.
    destruct (Asyncio.await (StreamIO.readline (ThrottleStreamIO.base self) tt) w1)
      as [[data | e] w2]; [| reflexivity].
    rewrite stream_append_run. reflexivity.
  - intros data w1 start.
    unfold ThrottleStreamIO.write, Asyncio.bind, _now.
    rewrite stream_wait_run. cbv beta iota. fold w1. fold start.
    destruct (Asyncio.await (StreamIO.write (ThrottleStreamIO.base self) data) w1)
      as [[u | e] w2]; [| reflexivity].
    apply stream_append_run.
  - intros name data start sides w3.
    destruct (stream_append_spec self name data start w) as (_ & Ht & Hsl & Hd & Hth).
    repeat split; try assumption.
    intros throttle Hin.
    apply (count_occ_In Nat.eq_dec). unfold sides.
    apply in_map_iff. exists throttle. split; [reflexivity | exact Hin].
  - intros th data start H. now apply append_obj_unlimited.
Qed.

Lemma C4_accounting_follows_the_io_witness :
  let w1 := snd (ThrottleStreamIO.wait example_stream Read example_world) in
  let sides := map (fun throttle => getattr throttle Write)
                   (values (dict_at (Asyncio.state example_world)
                                    (ThrottleStreamIO.throttles example_stream))) in
  ThrottleStreamIO.read example_stream 8192 example_world =
  (Ok ["a"%byte; "b"%byte],
   snd (ThrottleStreamIO.append example_stream Read ["a"%byte; "b"%byte]
          (Asyncio.time w1)
          (snd (Asyncio.await (StreamIO.read (ThrottleStreamIO.base example_stream) 8192) w1)))) /\
  (1 <= count_occ Nat.eq_dec sides 4%nat)%nat /\
  Throttle.append_obj (throttle_at (Asyncio.state example_world) 4%nat) (chunk 3) 6 =
  throttle_at (Asyncio.state example_world) 4%nat.
Proof.
  intros w1 sides.
  pose proof (C4_accounting_follows_the_io example_stream example_world)
    as (Hread & _ & _ & Happend & Hnone).
  split; [exact (Hread 8192%Z) |].
  split.
  - apply (proj2 (proj2 (proj2 (proj2 (Happend Write (chunk 3) 6))))
             (mkStreamThrottle 3%nat 4%nat)).
    right. left. reflexivity.
  - apply Hnone. exact I.
Defined.

(** ** ThrottleStreamIO: the default [throttles] *)

Lemma getitem_setitem (d : Dict) (key : string) (v : StreamThrottleObj) :
  getitem (setitem d key v) key = Some v.
Proof.
  induction d as [| [k old] rest IH]; simpl.
  - now rewrite String.eqb_refl.
  - destruct (String.eqb k key) eqn:E; simpl; rewrite E; [reflexivity | exact IH].
Qed.

Lemma In_values_setitem (d : Dict) (key : string) (v : StreamThrottleObj) :
  In v (values (setitem d key v)).
Proof.
  unfold values. induction d as [| [k old] rest IH]; simpl.
  - now left.
  - destruct (String.eqb k key); simpl; [now left | now right].
Qed.

Lemma raw_read_keeps_objects (self : StreamIO.t) (count : Z) (w : World) :
  let w2 := snd (Asyncio.await (StreamIO.read self count) w) in
  throttle_at (Asyncio.state w2) = throttle_at (Asyncio.state w) /\
  dict_at (Asyncio.state w2) = dict_at (Asyncio.state w).
Proof.
  unfold Asyncio.await, StreamIO.read, with_timeout, Asyncio.wait_for, StreamIO.reader_read.
  simpl.
  destruct (StreamIO.read_timeout self) as [t |];
    destruct (incoming (Asyncio.state w) (StreamIO.reader self)) as [| [d r] rest];
    simpl; try (split; reflexivity);
    destruct (Qle_bool t 0); simpl; try (split; reflexivity);
    destruct (Qle_bool t _); simpl; split; reflexivity.
Qed.

Lemma raw_write_keeps_objects (self : StreamIO.t) (data : bytes) (w : World) :
  let w2 := snd (Asyncio.await (StreamIO.write self data) w) in
  throttle_at (Asyncio.state w2) = throttle_at (Asyncio.state w) /\
  dict_at (Asyncio.state w2) = dict_at (Asyncio.state w).
Proof.
  unfold Asyncio.await, StreamIO.write, with_timeout, Asyncio.wait_for,
    StreamIO.writer_write_drain.
  simpl.
  destruct (StreamIO.write_timeout self) as [t |];
    destruct (drains (Asyncio.state w) (StreamIO.writer self)) as [| [d r] rest];
    simpl; try (split; reflexivity);
    destruct (Qle_bool t 0); simpl; try (split; reflexivity);
    destruct (Qle_bool t _); simpl; split; reflexivity.
Qed.

Lemma read_run (self : ThrottleStreamIO.t) (count : Z) (w : World) :
  ThrottleStreamIO.read self count w =
  let w1 := snd (ThrottleStreamIO.wait self Read w) in
  match Asyncio.await (StreamIO.read (ThrottleStreamIO.base self) count) w1 with
  | (Ok data, w2) =>
      (Ok data, snd (ThrottleStreamIO.append self Read data (Asyncio.time w1) w2))
  | (Raise e, w2) => (Raise e, w2)
  end.
Proof.
  unfold ThrottleStreamIO.read, Asyncio.bind, _now.
  rewrite stream_wait_run. cbv beta iota zeta.
  destruct (Asyncio.await (StreamIO.read (ThrottleStreamIO.base self) count) _)
    as [[data | e] w2]; [| reflexivity].
  rewrite stream_append_run. reflexivity.
Qed.

Lemma write_run (self : ThrottleStreamIO.t) (data : bytes) (w : World) :
  ThrottleStreamIO.write self data w =
  let w1 := snd (ThrottleStreamIO.wait self Write w) in
  match Asyncio.await (StreamIO.write (ThrottleStreamIO.base self) data) w1 with
  | (Ok _, w2) =>
      (Ok tt, snd (ThrottleStreamIO.append self Write data (Asyncio.time w1) w2))
  | (Raise e, w2) => (Raise e, w2)
  end.
Proof.
  unfold ThrottleStreamIO.write, Asyncio.bind, _now.
  rewrite stream_wait_run. cbv beta iota zeta.
  destruct (Asyncio.await (StreamIO.write (ThrottleStreamIO.base self) data) _)
    as [[u | e] w2]; [| reflexivity].
  apply stream_append_run.
Qed.

Lemma wait_sleep_indep (a : addr) (v1 v2 : World) (d : Q) :
  Asyncio.time v2 = Asyncio.time v1 -> Asyncio.state v2 = Asyncio.state v1 ->
  Throttle.wait a v1 = (Ok tt, after_sleep v1 d) ->
  Throttle.wait a v2 = (Ok tt, after_sleep v2 d).
Proof.
  intros Ht Hs. unfold Throttle.wait. rewrite Hs.
  assert (Hno : (Ok tt, v1) = (Ok tt, after_sleep v1 d) -> False).
  { intro E. apply (f_equal (fun r : Result unit * World => List.length (Asyncio.sleeps (snd r)))) in E.
    cbn [snd after_sleep Asyncio.sleeps] in E. rewrite length_app in E. simpl in E. lia. }
  destruct (_limit (throttle_at (Asyncio.state v1) a)) as [l |]; [| intro E; elim (Hno E)].
  destruct (_start (throttle_at (Asyncio.state v1) a)) as [s |]; [| intro E; elim (Hno E)].
  destruct (0 <? l)%Z; [| intro E; elim (Hno E)].
  unfold Asyncio.bind, _now, Asyncio.sleep. rewrite Ht. intro E.
  apply (f_equal (fun r : Result unit * World => Asyncio.sleeps (snd r))) in E.
  cbn [snd after_sleep Asyncio.sleeps] in E. apply app_inv_head in E.
  injection E as E. unfold after_sleep. rewrite Ht, E. reflexivity.
Qed.

Lemma run_tasks_slept (addrs : list addr) :
  forall (c latest : Q) (w : World) (a : addr) (d : Q),
    In a addrs ->
    Throttle.wait a (Asyncio.set_time c w) = (Ok tt, after_sleep (Asyncio.set_time c w) d) ->
    In (c, d) (Asyncio.sleeps (Asyncio.run_tasks c (map Throttle.wait addrs) latest w)).
Proof.
  induction addrs as [| a0 rest IH]; intros c latest w a d Hin Hw; [destruct Hin |].
  simpl.
  set (w1 := snd (Throttle.wait a0 (Asyncio.set_time c w))).
  destruct Hin as [-> | Hin].
  - destruct (run_tasks_spec rest c (later latest (Asyncio.time w1)) w1)
      as (_ & (started & Hsl & _) & _).
    rewrite Hsl. apply in_or_app. left. unfold w1. rewrite Hw.
    cbn [snd after_sleep Asyncio.sleeps Asyncio.set_time Asyncio.time].
    apply in_or_app. right. now left.
  - apply IH with (a := a); [exact Hin |].
    apply (wait_sleep_indep a (Asyncio.set_time c w)); [reflexivity | | exact Hw].
    unfold w1. cbn [Asyncio.set_time Asyncio.state]. now rewrite wait_state.
Qed.

Lemma stream_wait_slept (self : ThrottleStreamIO.t) (name : Direction) (w : World)
    (a : addr) (d : Q) :
  In a (ThrottleStreamIO.wait_tasks self name (Asyncio.state w)) ->
  Throttle.wait a w = (Ok tt, after_sleep w d) ->
  In (Asyncio.time w, d) (Asyncio.sleeps (snd (ThrottleStreamIO.wait self name w))).
Proof.
  intros Hin Hw. unfold ThrottleStreamIO.wait.
  destruct (ThrottleStreamIO.wait_tasks self name (Asyncio.state w)) as [| a0 rest] eqn:E;
    [destruct Hin |].
  change (map Throttle.wait (a0 :: rest)) with (Throttle.wait a0 :: map Throttle.wait rest).
  cbv iota beta.
  change (Throttle.wait a0 :: map Throttle.wait rest) with (map Throttle.wait (a0 :: rest)).
  unfold Asyncio.wait. cbn [snd].
  apply run_tasks_slept with (a := a); [exact Hin |].
  apply (wait_sleep_indep a w); [reflexivity | reflexivity | exact Hw].
Qed.

Lemma read_sleeps (self : ThrottleStreamIO.t) (count : Z) (w : World) :
  Asyncio.sleeps (snd (ThrottleStreamIO.read self count w)) =
  Asyncio.sleeps (snd (ThrottleStreamIO.wait self Read w)).
Proof.
  rewrite read_run. cbv zeta.
  set (w1 := snd (ThrottleStreamIO.wait self Read w)).
  assert (H : Asyncio.sleeps
                (snd (Asyncio.await (StreamIO.read (ThrottleStreamIO.base self) count) w1)) =
              Asyncio.sleeps w1) by reflexivity.
  destruct (Asyncio.await (StreamIO.read (ThrottleStreamIO.base self) count) w1)
    as [[data | e] w2]; cbn [snd] in *; [| exact H].
  destruct (stream_append_spec self Read data (Asyncio.time w1) w2) as (_ & _ & Hsl & _).
  now rewrite Hsl.
Qed.

Lemma write_sleeps (self : ThrottleStreamIO.t) (data : bytes) (w : World) :
  Asyncio.sleeps (snd (ThrottleStreamIO.write self data w)) =
  Asyncio.sleeps (snd (ThrottleStreamIO.wait self Write w)).
Proof.
  rewrite write_run. cbv zeta.
  set (w1 := snd (ThrottleStreamIO.wait self Write w)).
  assert (H : Asyncio.sleeps
                (snd (Asyncio.await (StreamIO.write (ThrottleStreamIO.base self) data) w1)) =
              Asyncio.sleeps w1) by reflexivity.
  destruct (Asyncio.await (StreamIO.write (ThrottleStreamIO.base self) data) w1)
    as [[u | e] w2]; cbn [snd] in *; [| exact H].
  destruct (stream_append_spec self Write data (Asyncio.time w1) w2) as (_ & _ & Hsl & _).
  now rewrite Hsl.
Qed.

(** C10. Two [ThrottleStreamIO] instances made without the [throttles]
    argument hold the same [dict] object, the one of the signature of
    [__init__]. A pair stored under a key through one instance is then in
    the [throttles] of the other, whose [wait] and [append] are those of
    the first. The wait of the other starts a task for the pair's side
    under the same test as for any pair (limit set and not 0); it then does
    not resume before the [Throttle.wait] of that side is over, and the
    sleep that side asks for is among the sleeps it has made. Every [read]
    and [write] of the other runs what follows its wait in the world that
    this wait leaves, so it has made that sleep too; every [append] of the
    other counts into the pair's side, and so does every [read] and [write]
    of the other whose raw operation completes. *)
Theorem C10_default_throttles_is_shared :
  forall (r1 w1 r2 w2 : nat) (t1 rt1 wt1 t2 rt2 wt2 : option Q),
    let a := ThrottleStreamIO.__init__ r1 w1 None t1 rt1 wt1 in
    let b := ThrottleStreamIO.__init__ r2 w2 None t2 rt2 wt2 in
    (ThrottleStreamIO.throttles a = ThrottleStreamIO.default_throttles /\
     ThrottleStreamIO.throttles b = ThrottleStreamIO.throttles a) /\
    (forall name v,
        ThrottleStreamIO.wait b name v = ThrottleStreamIO.wait a name v /\
        forall data start,
          ThrottleStreamIO.append b name data start v =
          ThrottleStreamIO.append a name data start v) /\
    forall (key : string) (pair : StreamThrottleObj) (w : World),
      let w' := snd (ThrottleStreamIO.throttles_setitem a key pair w) in
      let s' := Asyncio.state w' in
      let limits := fun name : Direction =>
        exists limit, Throttle.limit (getattr pair name) s' = Some limit /\ limit <> 0%Z in
      let slept := fun (name : Direction) (v : World) =>
        forall d,
          Throttle.wait (getattr pair name) w' = (Ok tt, after_sleep w' d) ->
          In (Asyncio.time w', d) (Asyncio.sleeps v) in
      let counted := fun (name : Direction) (data : bytes) (w'' : World) =>
        exists n start,
          (1 <= n)%nat /\
          throttle_at (Asyncio.state w'') (getattr pair name) =
          Nat.iter n (fun th => Throttle.append_obj th data start)
                   (throttle_at s' (getattr pair name)) in
      getitem (dict_at s' (ThrottleStreamIO.throttles b)) key = Some pair /\
      (forall name,
          limits name ->
          let v := snd (ThrottleStreamIO.wait b name w') in
          In (getattr pair name) (ThrottleStreamIO.wait_tasks b name s') /\
          (Asyncio.time (snd (Throttle.wait (getattr pair name) w')) <= Asyncio.time v)%Q /\
          slept name v) /\
      (forall name data start,
          counted name data (snd (ThrottleStreamIO.append b name data start w'))) /\
      (forall count,
          ThrottleStreamIO.read b count w' =
          (start <- _now ;;
           data <- Asyncio.await (StreamIO.read (ThrottleStreamIO.base b) count) ;;
           ThrottleStreamIO.append b Read data start ;;
           Asyncio.ret data) (snd (ThrottleStreamIO.wait b Read w')) /\
          (limits Read -> slept Read (snd (ThrottleStreamIO.read b count w'))) /\
          match ThrottleStreamIO.read b count w' with
          | (Ok data, w'') => counted Read data w''
          | (Raise _, _) => True
          end) /\
      (forall data,
          ThrottleStreamIO.write b data w' =
          (start <- _now ;;
           Asyncio.await (StreamIO.write (ThrottleStreamIO.base b) data) ;;
           ThrottleStreamIO.append b Write data start)
            (snd (ThrottleStreamIO.wait b Write w')) /\
          (limits Write -> slept Write (snd (ThrottleStreamIO.write b data w'))) /\
          match ThrottleStreamIO.write b data w' with
          | (Ok _, w'') => counted Write data w''
          | (Raise _, _) => True
          end).
Proof.
  intros r1 w1 r2 w2 t1 rt1 wt1 t2 rt2 wt2 a b.
  split; [split; reflexivity |].
  split; [intros name v; split; [reflexivity | intros data start; reflexivity] |].
  intros key pair w w' s' limits slept counted.
  assert (Hd : dict_at s' (ThrottleStreamIO.throttles b) =
               setitem (dict_at (Asyncio.state w) ThrottleStreamIO.default_throttles) key pair).
  { unfold s', w'. simpl. apply upd_same. }
  assert (Hin : In pair (values (dict_at s' (ThrottleStreamIO.throttles b)))).
  { rewrite Hd. apply In_values_setitem. }
  assert (Htask : forall name, limits name ->
             In (getattr pair name) (ThrottleStreamIO.wait_tasks b name s')).
  { intros name Hl. apply wait_tasks_In. exists pair. auto. }
  assert (Hslept : forall name, limits name ->
             slept name (snd (ThrottleStreamIO.wait b name w'))).
  { intros name Hl d Hw. apply (stream_wait_slept b name w' _ d (Htask name Hl) Hw). }
  assert (Hcount : forall name data start (v : World),
             throttle_at (Asyncio.state v) = throttle_at s' ->
             dict_at (Asyncio.state v) = dict_at s' ->
             counted name data (snd (ThrottleStreamIO.append b name data start v))).
  { intros name data start v Hth Hdi.
    destruct (stream_append_spec b name data start v) as (_ & _ & _ & _ & H).
    eexists. exists start. split; [| rewrite H, Hth; reflexivity].
    apply (count_occ_In Nat.eq_dec). apply in_map_iff.
    exists pair. split; [reflexivity |]. rewrite Hdi. exact Hin. }
  split; [rewrite Hd; apply getitem_setitem |].
  split.
  { intros name Hl v. split; [now apply Htask |]. split; [| now apply Hslept].
    destruct (stream_wait_spec b name w') as (_ & _ & _ & Hall & _).
    apply Hall. now apply Htask. }
  split.
  { intros name data start. now apply Hcount. }
  destruct (stream_wait_spec b Read w') as (HstR & _).
  destruct (stream_wait_spec b Write w') as (HstW & _).
  split.
  - intro count. split; [| split].
    + unfold ThrottleStreamIO.read at 1. unfold Asyncio.bind at 1.
      rewrite stream_wait_run. reflexivity.
    + intros Hl d Hw. rewrite read_sleeps. now apply Hslept.
    + rewrite read_run. cbv zeta.
      pose proof (raw_read_keeps_objects (ThrottleStreamIO.base b) count
                    (snd (ThrottleStreamIO.wait b Read w'))) as [Hth Hdi].
      destruct (Asyncio.await (StreamIO.read (ThrottleStreamIO.base b) count) _)
        as [[data | e] v]; [| exact I].
      simpl in Hth, Hdi. apply Hcount.
      * rewrite Hth, HstR. reflexivity.
      * rewrite Hdi, HstR. reflexivity.
  - intro data. split; [| split].
    + unfold ThrottleStreamIO.write at 1. unfold Asyncio.bind at 1.
      rewrite stream_wait_run. reflexivity.
    + intros Hl d Hw. rewrite write_sleeps. now apply Hslept.
    + rewrite write_run. cbv zeta.
      pose proof (raw_write_keeps_objects (ThrottleStreamIO.base b) data
                    (snd (ThrottleStreamIO.wait b Write w'))) as [Hth Hdi].
      destruct (Asyncio.await (StreamIO.write (ThrottleStreamIO.base b) data) _)
        as [[u | e] v]; [| exact I].
      simpl in Hth, Hdi. apply Hcount.
      * rewrite Hth, HstW. reflexivity.
      * rewrite Hdi, HstW. reflexivity.
Qed.

Lemma C10_default_throttles_is_shared_witness :
  let a := ThrottleStreamIO.__init__ 0 0 None None None None in
  let b := ThrottleStreamIO.__init__ 1 1 None (Some 3) None None in
  let pair := mkStreamThrottle 1%nat 2%nat in
  let w' := snd (ThrottleStreamIO.throttles_setitem a "global" pair example_world) in
  ThrottleStreamIO.throttles b = ThrottleStreamIO.throttles a /\
  getitem (dict_at (Asyncio.state w') (ThrottleStreamIO.throttles b)) "global" = Some pair /\
  In 1%nat (ThrottleStreamIO.wait_tasks b Read (Asyncio.state w')) /\
  (Asyncio.time (snd (Throttle.wait 1%nat w')) <=
   Asyncio.time (snd (ThrottleStreamIO.wait b Read w')))%Q /\
  Asyncio.time (snd (Throttle.wait 1%nat w')) == 6 + (3 # 2) /\
  In (6, py_max0 (5 + inject_Z 250 / inject_Z 100 - 6))
     (Asyncio.sleeps (snd (ThrottleStreamIO.read b 8192 w'))).
Proof.
  intros a b pair w'.
  pose proof (C10_default_throttles_is_shared 0 0 1 1 None None None (Some 3) None None)
    as ((_ & Hsame) & _ & Hshared).
  destruct (Hshared "global"%string pair example_world)
    as (Hget & Hwait & _ & Hread & _).
  assert (Hl : exists limit,
             Throttle.limit (getattr pair Read) (Asyncio.state w') = Some limit /\
             limit <> 0%Z).
  { exists 100%Z. split; [reflexivity | lia]. }
  destruct (Hwait Read Hl) as (Htask & Hheld & _).
  destruct (Hread 8192%Z) as (_ & Hslept & _).
  split; [exact Hsame |]. split; [exact Hget |].
  split; [exact Htask |]. split; [exact Hheld |].
  split; [vm_compute; reflexivity |].
  apply (Hslept Hl). reflexivity.
Defined.

(** ** Iteration *)

Section Iteration.
Context {S T : Type}.
Variable step : Asyncio.M S T.

Lemma async_for_yields (xs : list T) :
  forall (items : list T) (w w1 w2 : Asyncio.World S) (fuel : nat),
    yields step w xs w1 ->
    step w1 = (Raise StopAsyncIteration, w2) ->
    (List.length xs < fuel)%nat ->
    async_for_append fuel step items w = Some (Ok (items ++ xs), w2).
Proof.
  induction xs as [| x rest IH]; intros items w w1 w2 fuel Hy Hstop Hfuel.
  - simpl in Hy. subst w1. destruct fuel as [| fuel]; [simpl in Hfuel; lia |].
    simpl. rewrite Hstop. now rewrite app_nil_r.
  - destruct Hy as (wx & Hx & Hy).
    destruct fuel as [| fuel]; [simpl in Hfuel; lia |].
    simpl. rewrite Hx.
    rewrite (IH (items ++ [x]) wx w1 w2 fuel Hy Hstop) by (simpl in Hfuel; lia).
    now rewrite <- app_assoc.
Qed.

Lemma async_for_raises (xs : list T) :
  forall (items : list T) (w w1 w2 : Asyncio.World S) (e : Exn) (fuel : nat),
    yields step w xs w1 ->
    step w1 = (Raise e, w2) ->
    e <> StopAsyncIteration ->
    (List.length xs < fuel)%nat ->
    async_for_append fuel step items w = Some (Raise e, w2).
Proof.
  induction xs as [| x rest IH]; intros items w w1 w2 e fuel Hy Hraise He Hfuel.
  - simpl in Hy. subst w1. destruct fuel as [| fuel]; [simpl in Hfuel; lia |].
    simpl. rewrite Hraise. destruct e; congruence.
  - destruct Hy as (wx & Hx & Hy).
    destruct fuel as [| fuel]; [simpl in Hfuel; lia |].
    simpl. rewrite Hx.
    apply (IH (items ++ [x]) wx w1 w2 e fuel Hy Hraise He). simpl in Hfuel. lia.
Qed.

Lemma async_for_prefix (fuel : nat) :
  forall (items r : list T) (w w' : Asyncio.World S),
    async_for_append fuel step items w = Some (Ok r, w') ->
    exists rest, r = items ++ rest.
Proof.
  induction fuel as [| fuel IH]; intros items r w w' H; [discriminate H |].
  simpl in H. destruct (step w) as [[x | e] w1].
  - apply IH in H. destruct H as [rest ->]. exists (x :: rest).
    now rewrite <- app_assoc.
  - destruct e; inversion H; subst. exists []. now rewrite app_nil_r.
Qed.

End Iteration.

Lemma anext_of_read {S T} (truthy : T -> bool) (it : AsyncStreamIterator.t S T)
    (w : Asyncio.World S) :
  AsyncStreamIterator.__anext__ truthy it w =
  match AsyncStreamIterator.read_coro it w with
  | (Ok data, w1) => if truthy data then (Ok data, w1) else (Raise StopAsyncIteration, w1)
  | (Raise e, w1) => (Raise e, w1)
  end.
Proof.
  unfold AsyncStreamIterator.__anext__, Asyncio.bind.
  destruct (AsyncStreamIterator.read_coro it w) as [[data | e] w1]; [| reflexivity].
  destruct (truthy data); reflexivity.
Qed.

Lemma anext_yields {S T} (truthy : T -> bool) (it : AsyncStreamIterator.t S T) (xs : list T) :
  forall w w1 : Asyncio.World S,
    yields (AsyncStreamIterator.read_coro it) w xs w1 ->
    Forall (fun x => truthy x = true) xs ->
    yields (AsyncStreamIterator.__anext__ truthy it) w xs w1.
Proof.
  induction xs as [| x rest IH]; intros w w1 Hy Hall; [exact Hy |].
  destruct Hy as (wx & Hx & Hy). inversion Hall as [| ? ? Ht Hrest]; subst.
  exists wx. split; [| now apply IH].
  rewrite anext_of_read, Hx, Ht. reflexivity.
Qed.

(** C8 (as amended). One step of an [AsyncStreamIterator] runs the read
    operation once: a result that is true is the next element, a result that
    is false raises [StopAsyncIteration], an exception of the read is passed
    on. An [async for] over the iterator therefore produces the results of
    the successive reads up to the first empty one, in order, and leaves the
    source right after that read: no further read is issued. The iterator
    keeps no position of its own and [__aiter__] returns it as it is, so
    iterating it again does not restart it: it reads on from where the
    source now is, and it produces nothing again exactly when that next read
    is empty again. *)
Theorem C8_stream_iterator_reads_until_empty :
  forall (S T : Type) (truthy : T -> bool) (it : AsyncStreamIterator.t S T),
    let read := AsyncStreamIterator.read_coro it in
    let next := AsyncStreamIterator.__anext__ truthy it in
    (forall w,
        next w =
        match read w with
        | (Ok data, w1) => if truthy data then (Ok data, w1) else (Raise StopAsyncIteration, w1)
        | (Raise e, w1) => (Raise e, w1)
        end) /\
    AsyncStreamIterator.__aiter__ it = it /\
    (forall w xs w1 empty w2 fuel,
        yields read w xs w1 ->
        Forall (fun x => truthy x = true) xs ->
        read w1 = (Ok empty, w2) ->
        truthy empty = false ->
        (List.length xs < fuel)%nat ->
        async_for_append fuel next [] w = Some (Ok xs, w2)) /\
    (forall w2 empty w3 fuel,
        read w2 = (Ok empty, w3) ->
        truthy empty = false ->
        (0 < fuel)%nat ->
        async_for_append fuel next [] w2 = Some (Ok [], w3)) /\
    (forall w2 x w3 fuel r w4,
        read w2 = (Ok x, w3) ->
        truthy x = true ->
        async_for_append fuel next [] w2 = Some (Ok r, w4) ->
        exists rest, r = x :: rest).
Proof.
  intros S T truthy it read next.
  split; [intro w; apply anext_of_read |].
  split; [reflexivity |].
  split; [| split].
  - intros w xs w1 empty w2 fuel Hy Hall He Hf Hfuel.
    apply (async_for_yields next xs [] w w1 w2 fuel); [| | exact Hfuel].
    + now apply anext_yields.
    + unfold next. rewrite anext_of_read. fold read. rewrite He, Hf. reflexivity.
  - intros w2 empty w3 fuel He Hf Hfuel.
    apply (async_for_yields next [] [] w2 w2 w3 fuel); [reflexivity | | exact Hfuel].
    unfold next. rewrite anext_of_read. fold read. rewrite He, Hf. reflexivity.
  - intros w2 x w3 fuel r w4 Hx Ht H.
    destruct fuel as [| fuel]; [discriminate H |].
    simpl in H. unfold next in H at 1. rewrite anext_of_read in H. fold read in H.
    rewrite Hx, Ht in H.
    apply async_for_prefix in H. exact H.
Qed.

Lemma C8_stream_iterator_reads_until_empty_witness :
  let it := AsyncStreamIterator.mk replay in
  let a := ["a"%byte] in
  let b := ["b"%byte] in
  async_for_append 3 (AsyncStreamIterator.__anext__ bytes_truthy it) []
                   (Asyncio.mkWorld 0 [] [a; b; []]) =
  Some (Ok [a; b], Asyncio.mkWorld 0 [] []) /\
  async_for_append 1 (AsyncStreamIterator.__anext__ bytes_truthy it) []
                   (Asyncio.mkWorld 0 [] []) =
  Some (Ok [], Asyncio.mkWorld 0 [] []).
Proof.
  intros it a b.
  destruct (C8_stream_iterator_reads_until_empty (list bytes) bytes bytes_truthy it)
    as (_ & _ & Hrun & Hagain & _).
  split.
  - apply (Hrun (Asyncio.mkWorld 0 [] [a; b; []]) [a; b] (Asyncio.mkWorld 0 [] [[]]) []).
    + simpl. repeat (eexists; split; [reflexivity |]). reflexivity.
    + repeat constructor.
    + reflexivity.
    + reflexivity.
    + simpl. lia.
  - apply (Hagain (Asyncio.mkWorld 0 [] []) []); [reflexivity | reflexivity | lia].
Defined.

(** C8 as stated fails: over a read operation that returns [a], [b], the
    empty [bytes] and then [c], the first iteration produces [a] and [b],
    and iterating the same iterator again produces [c]: it did not remain
    exhausted. *)
Lemma C8_counterexample_not_exhausted :
  let it := AsyncStreamIterator.mk replay in
  let a := ["a"%byte] in
  let b := ["b"%byte] in
  let c := ["c"%byte] in
  let w := Asyncio.mkWorld 0 [] [a; b; []; c] in
  let w2 := Asyncio.mkWorld 0 [] [c] in
  async_for_append 9 (AsyncStreamIterator.__anext__ bytes_truthy it) [] w = Some (Ok [a; b], w2) /\
  async_for_append 9 (AsyncStreamIterator.__anext__ bytes_truthy (AsyncStreamIterator.__aiter__ it))
                   [] w2 =
  Some (Ok [c], Asyncio.mkWorld 0 [] []) /\
  [c] <> @nil bytes.
Proof.
  intros it a b c w w2. split; [reflexivity |]. split; [reflexivity | discriminate].
Qed.

Lemma wait_for_expires {S A} (coro : Asyncio.Coroutine S A) (t : Q) (w : Asyncio.World S) :
  (t < Asyncio.took (coro w))%Q ->
  Asyncio.outcome (Asyncio.wait_for coro (Some t) w) = Raise TimeoutError.
Proof.
  intro H. unfold Asyncio.wait_for.
  destruct (Qle_bool t 0); [reflexivity |].
  apply Qlt_le_weak, Qle_bool_iff in H. rewrite H. reflexivity.
Qed.

(** C7 (as amended). A concrete lister class has an [__anext__] of its own,
    and that function is the one that runs at every step: the [with_timeout]
    that [AbstractAsyncLister] puts on its abstract [__anext__] is not
    consulted. The timeout of the instance is applied to each step exactly
    when the class has wrapped its own [__anext__] with [with_timeout]. For
    every concrete class, awaiting an instance collects the elements of the
    remaining steps in order, up to [StopAsyncIteration]; if a step raises
    anything else, the await raises it and returns no list. For a class that
    has wrapped its [__anext__], a step that is pending for longer than the
    timeout makes the await raise [TimeoutError], not return the elements
    collected so far. *)
Theorem C7_lister_timeout_is_of_the_subclass :
  forall (S T : Type) (none : T) (cls : AbstractAsyncLister.Subclass S T)
         (m : AbstractAsyncLister.Method S T) (self : AbstractAsyncLister.t),
    AbstractAsyncLister.own_anext cls = Some m ->
    let next := AbstractAsyncLister.step none cls self in
    AbstractAsyncLister.lookup_anext none cls = m /\
    (forall w, next w = Asyncio.await (m self tt) w) /\
    (forall f,
        m = with_timeout AbstractAsyncLister.timeout f ->
        forall w,
          next w =
          Asyncio.await (Asyncio.wait_for (f self tt) (AbstractAsyncLister.timeout self)) w) /\
    (forall w xs w1 w2 fuel,
        yields next w xs w1 ->
        next w1 = (Raise StopAsyncIteration, w2) ->
        (List.length xs < fuel)%nat ->
        AbstractAsyncLister.await_list none fuel cls self w = Some (Ok xs, w2)) /\
    (forall w xs w1 w2 e fuel,
        yields next w xs w1 ->
        next w1 = (Raise e, w2) ->
        e <> StopAsyncIteration ->
        (List.length xs < fuel)%nat ->
        AbstractAsyncLister.await_list none fuel cls self w = Some (Raise e, w2)) /\
    (forall f t w xs w1 fuel,
        m = with_timeout AbstractAsyncLister.timeout f ->
        AbstractAsyncLister.timeout self = Some t ->
        yields next w xs w1 ->
        (t < Asyncio.took (f self tt w1))%Q ->
        (List.length xs < fuel)%nat ->
        AbstractAsyncLister.await_list none fuel cls self w =
        Some (Raise TimeoutError, snd (next w1))).
Proof.
  intros S T none cls m self Hown next.
  assert (Hlook : AbstractAsyncLister.lookup_anext none cls = m).
  { unfold AbstractAsyncLister.lookup_anext. now rewrite Hown. }
  assert (Hnext : forall w, next w = Asyncio.await (m self tt) w).
  { intro w. unfold next, AbstractAsyncLister.step. now rewrite Hlook. }
  split; [exact Hlook |]. split; [exact Hnext |].
  split; [| split; [| split]].
  - intros f -> w. rewrite Hnext. reflexivity.
  - intros w xs w1 w2 fuel Hy Hstop Hfuel.
    exact (async_for_yields next xs [] w w1 w2 fuel Hy Hstop Hfuel).
  - intros w xs w1 w2 e fuel Hy Hraise He Hfuel.
    exact (async_for_raises next xs [] w w1 w2 e fuel Hy Hraise He Hfuel).
  - intros f t w xs w1 fuel -> Ht Hy Hlong Hfuel.
    apply (async_for_raises next xs [] w w1 (snd (next w1)) TimeoutError fuel Hy);
      [| discriminate | exact Hfuel].
    rewrite Hnext. unfold Asyncio.await, with_timeout. cbv zeta. rewrite Ht.
    rewrite (wait_for_expires (f self tt) t w1 Hlong). reflexivity.
Qed.

Lemma C7_lister_timeout_is_of_the_subclass_witness :
  let w := Asyncio.mkWorld 0 [] [1; 2; 3]%Z in
  AbstractAsyncLister.await_list 0%Z 4 wrapped_lister (AbstractAsyncLister.mk (Some 7)) w =
  Some (Ok [1; 2; 3]%Z, Asyncio.mkWorld (0 + 5 + 5 + 5 + 0) [] []) /\
  AbstractAsyncLister.await_list 0%Z 4 wrapped_lister (AbstractAsyncLister.mk (Some 1)) w =
  Some (Raise TimeoutError, Asyncio.mkWorld (0 + 1) [] [1; 2; 3]%Z).
Proof.
  intro w. split.
  - destruct (C7_lister_timeout_is_of_the_subclass (list Z) Z 0%Z wrapped_lister
                (with_timeout AbstractAsyncLister.timeout (slow_items 5))
                (AbstractAsyncLister.mk (Some 7)) eq_refl)
      as (_ & _ & _ & Hcollect & _).
    apply (Hcollect w [1; 2; 3]%Z (Asyncio.mkWorld (0 + 5 + 5 + 5) [] [])).
    + simpl. repeat (eexists; split; [reflexivity |]). reflexivity.
    + reflexivity.
    + simpl. lia.
  - destruct (C7_lister_timeout_is_of_the_subclass (list Z) Z 0%Z wrapped_lister
                (with_timeout AbstractAsyncLister.timeout (slow_items 5))
                (AbstractAsyncLister.mk (Some 1)) eq_refl)
      as (_ & _ & _ & _ & _ & Hlate).
    apply (Hlate (slow_items 5) 1 w [] w 4%nat);
      [reflexivity | reflexivity | reflexivity | reflexivity | simpl; lia].
Defined.

(** C7 as stated fails: [plain_lister] is a concrete lister class, its
    instance has the timeout 1 and every step takes 5, yet awaiting it
    returns all three elements and raises no [TimeoutError]. *)
Lemma C7_counterexample_plain_subclass :
  let self := AbstractAsyncLister.mk (Some 1) in
  let w := Asyncio.mkWorld 0 [] [1; 2; 3]%Z in
  AbstractAsyncLister.concrete plain_lister = true /\
  AbstractAsyncLister.timeout self = Some 1 /\
  Asyncio.took (slow_items 5 self tt w) = 5 /\
  AbstractAsyncLister.step 0%Z plain_lister self w <>
  Asyncio.await (Asyncio.wait_for (slow_items 5 self tt) (AbstractAsyncLister.timeout self)) w /\
  AbstractAsyncLister.await_list 0%Z 4 plain_lister self w =
  Some (Ok [1; 2; 3]%Z, Asyncio.mkWorld (0 + 5 + 5 + 5 + 0) [] []).
Proof.
  intros self w. split; [reflexivity |]. split; [reflexivity |]. split; [reflexivity |].
  split; [| reflexivity].
  intro H. vm_compute in H. discriminate H.
Qed.

(** * Further properties *)

(** ** Pacing of writes *)

Lemma py_max0_of_nonneg (x : Q) : (0 <= x)%Q -> py_max0 x == x.
Proof.
  intro H. unfold py_max0. destruct (Qlt_bool 0 x) eqn:E; [reflexivity |].
  apply Qlt_bool_false in E. apply Qle_antisym; assumption.
Qed.

Lemma div_mono_num (a b L : Z) :
  (a <= b)%Z -> (0 < L)%Z -> (inject_Z a / inject_Z L <= inject_Z b / inject_Z L)%Q.
Proof.
  intros Hab HL. destruct L as [| p | p]; try lia.
  unfold Qle, Qdiv, Qmult, Qinv, inject_Z. simpl. nia.
Qed.

Lemma len_nonneg (data : bytes) : (0 <= len data)%Z.
Proof. unfold len. lia. Qed.

Lemma for_each_append_frame (name : Direction) (data : bytes) (start : Q)
    (ps : list StreamThrottleObj) :
  forall w : World,
    let s' := Asyncio.state (snd (for_each ps
      (fun throttle => Throttle.append (getattr throttle name) data start) w)) in
    next_addr s' = next_addr (Asyncio.state w) /\
    incoming s' = incoming (Asyncio.state w) /\
    drains s' = drains (Asyncio.state w) /\
    written s' = written (Asyncio.state w).
Proof.
  induction ps as [| p rest IH]; intro w; [simpl; auto |].
  simpl for_each. unfold Asyncio.bind, Throttle.append at 1, Asyncio.modify.
  set (w1 := Asyncio.mkWorld _ _ _). specialize (IH w1). exact IH.
Qed.

Lemma stream_append_frame (self : ThrottleStreamIO.t) (name : Direction) (data : bytes)
    (start : Q) (w : World) :
  let s' := Asyncio.state (snd (ThrottleStreamIO.append self name data start w)) in
  next_addr s' = next_addr (Asyncio.state w) /\
  incoming s' = incoming (Asyncio.state w) /\
  drains s' = drains (Asyncio.state w) /\
  written s' = written (Asyncio.state w).
Proof. unfold ThrottleStreamIO.append. apply for_each_append_frame. Qed.

Lemma raw_write_instant (self : StreamIO.t) (data : bytes) (w : World) :
  StreamIO.write_timeout self = None ->
  drains (Asyncio.state w) (StreamIO.writer self) = [] ->
  let s := Asyncio.state w in
  Asyncio.await (StreamIO.write self data) w =
  (Ok tt,
   Asyncio.mkWorld (Asyncio.time w + 0) (Asyncio.sleeps w)
     (mkStore (throttle_at s) (dict_at s) (next_addr s) (incoming s) (drains s)
        (upd (written s) (StreamIO.writer self)
             (written s (StreamIO.writer self) ++ [data])))).
Proof.
  intros Ht Hd s.
  unfold Asyncio.await, StreamIO.write, with_timeout, Asyncio.wait_for,
    StreamIO.writer_write_drain.
  cbv zeta. rewrite Ht, Hd. reflexivity.
Qed.

(** The wait of a stream whose only pair has a limited side that is fresh. *)
Lemma stream_wait_single (self : ThrottleStreamIO.t) (name : Direction) (w : World)
    (key : string) (pair : StreamThrottleObj) (L : Z) :
  dict_at (Asyncio.state w) (ThrottleStreamIO.throttles self) = [(key, pair)] ->
  Throttle.limit (getattr pair name) (Asyncio.state w) = Some L ->
  (0 < L)%Z ->
  let w1 := snd (ThrottleStreamIO.wait self name w) in
  Asyncio.state w1 = Asyncio.state w /\
  (Asyncio.time w <= Asyncio.time w1)%Q /\
  (Asyncio.time (snd (Throttle.wait (getattr pair name) w)) <= Asyncio.time w1)%Q /\
  (Asyncio.time w1 = Asyncio.time w \/
   Asyncio.time w1 = Asyncio.time (snd (Throttle.wait (getattr pair name) w))).
Proof.
  intros Hd Hl HL w1.
  destruct (stream_wait_spec self name w) as (Hst & _ & Hlat & Hall & Hone).
  fold w1 in Hst, Hlat, Hall, Hone.
  assert (Htasks : ThrottleStreamIO.wait_tasks self name (Asyncio.state w) =
                   [getattr pair name]).
  { unfold ThrottleStreamIO.wait_tasks, values. rewrite Hd. simpl.
    rewrite Hl. simpl. destruct L; try lia. reflexivity. }
  rewrite Htasks in Hall, Hone.
  split; [exact Hst |]. split; [exact Hlat |].
  split; [apply Hall; now left |].
  destruct Hone as [H | (a & [<- | []] & H)]; [now left | now right].
Qed.

Lemma total_len_nonneg (chunks : list bytes) : (0 <= total_len chunks)%Z.
Proof.
  induction chunks as [| c rest IH]; simpl; [lia |].
  pose proof (len_nonneg c). lia.
Qed.

Lemma single_side_count (a : addr) : count_occ Nat.eq_dec [a] a = 1%nat.
Proof. simpl. destruct (Nat.eq_dec a a); [reflexivity | congruence]. Qed.

(** One write through a stream whose only pair has a limited write side
    with a window start, when the clock has not passed the deadline. *)
Lemma write_step_paced (self : ThrottleStreamIO.t) (w : World) (key : string)
    (pair : StreamThrottleObj) (L : Z) (r t0 : Q) (sum : Z) (c : bytes) :
  dict_at (Asyncio.state w) (ThrottleStreamIO.throttles self) = [(key, pair)] ->
  throttle_at (Asyncio.state w) (write pair) = mkThrottle (Some L) r (Some t0) sum ->
  (0 < L)%Z ->
  (Asyncio.time w <= t0 + inject_Z sum / inject_Z L)%Q ->
  (inject_Z sum / inject_Z L <= r)%Q ->
  StreamIO.write_timeout (ThrottleStreamIO.base self) = None ->
  drains (Asyncio.state w) (StreamIO.writer (ThrottleStreamIO.base self)) = [] ->
  let run := ThrottleStreamIO.write self c w in
  fst run = Ok tt /\
  dict_at (Asyncio.state (snd run)) (ThrottleStreamIO.throttles self) = [(key, pair)] /\
  throttle_at (Asyncio.state (snd run)) (write pair) =
    mkThrottle (Some L) r (Some t0) (sum + len c) /\
  drains (Asyncio.state (snd run)) (StreamIO.writer (ThrottleStreamIO.base self)) = [] /\
  Asyncio.time (snd run) == t0 + inject_Z sum / inject_Z L.
Proof.
  intros Hd Hth HL Hnow Hr Hto Hdr run. unfold run. rewrite write_run. cbv zeta.
  destruct (stream_wait_single self Write w key pair L Hd) as (Hst & Hge & Hfin & Hone);
    [unfold Throttle.limit; simpl getattr; now rewrite Hth | exact HL |].
  simpl getattr in Hfin, Hone.
  set (w1 := snd (ThrottleStreamIO.wait self Write w)) in *.
  pose proof (wait_limited (write pair) w L t0) as Hw. cbv zeta in Hw.
  rewrite Hth in Hw. specialize (Hw eq_refl HL eq_refl). cbn [_sum] in Hw.
  rewrite Hw in Hfin, Hone. cbn [snd after_sleep Asyncio.time] in Hfin, Hone.
  pose proof (py_max0_of_nonneg (t0 + inject_Z sum / inject_Z L - Asyncio.time w)
                ltac:(lra)) as Hmax.
  assert (Ht1 : Asyncio.time w1 == t0 + inject_Z sum / inject_Z L).
  { destruct Hone as [E | E]; rewrite E in Hfin |- *; lra. }
  rewrite raw_write_instant; [| exact Hto | rewrite Hst; exact Hdr].
  set (w2 := Asyncio.mkWorld _ _ _).
  destruct (stream_append_spec self Write c (Asyncio.time w1) w2)
    as (Hok & Htime & _ & Hdict & Hthr).
  destruct (stream_append_frame self Write c (Asyncio.time w1) w2) as (_ & _ & Hdrains & _).
  assert (Hd2 : dict_at (Asyncio.state w2) (ThrottleStreamIO.throttles self) = [(key, pair)]).
  { unfold w2. simpl. rewrite Hst. exact Hd. }
  cbn [fst snd].
  split; [reflexivity |].
  split; [rewrite Hdict; exact Hd2 |].
  split.
  - rewrite Hthr, Hd2. unfold values. simpl map. simpl getattr.
    rewrite single_side_count. simpl Nat.iter.
    rewrite Hst, Hth.
    rewrite (append_obj_limited (mkThrottle (Some L) r (Some t0) sum) c (Asyncio.time w1)
               L t0 eq_refl HL eq_refl).
    cbn [_limit reset_rate _sum].
    assert (F : Qlt_bool r (Asyncio.time w1 - t0) = false) by (apply Qlt_bool_false; lra).
    rewrite F. reflexivity.
  - split.
    + rewrite Hdrains. unfold w2. simpl. rewrite Hst. exact Hdr.
    + rewrite Htime. unfold w2. simpl. lra.
Qed.

Lemma append_obj_fresh (L : Z) (r : Q) (c : bytes) (start : Q) :
  (0 < L)%Z -> (0 <= r)%Q ->
  Throttle.append_obj (mkThrottle (Some L) r None 0) c start =
  mkThrottle (Some L) r (Some start) (len c).
Proof.
  intros HL Hr. unfold Throttle.append_obj. cbn [_limit _start].
  apply Z.ltb_lt in HL. rewrite HL.
  unfold Throttle.with_start, Throttle.with_sum. cbn [_limit _start reset_rate _sum].
  assert (F : Qlt_bool r (start - start) = false) by (apply Qlt_bool_false; lra).
  rewrite F. reflexivity.
Qed.

(** The first write through a stream whose only pair has a limited write
    side without history. *)
Lemma write_step_fresh (self : ThrottleStreamIO.t) (w : World) (key : string)
    (pair : StreamThrottleObj) (L : Z) (r : Q) (c : bytes) :
  dict_at (Asyncio.state w) (ThrottleStreamIO.throttles self) = [(key, pair)] ->
  throttle_at (Asyncio.state w) (write pair) = mkThrottle (Some L) r None 0 ->
  (0 < L)%Z ->
  (0 <= r)%Q ->
  StreamIO.write_timeout (ThrottleStreamIO.base self) = None ->
  drains (Asyncio.state w) (StreamIO.writer (ThrottleStreamIO.base self)) = [] ->
  let run := ThrottleStreamIO.write self c w in
  fst run = Ok tt /\
  dict_at (Asyncio.state (snd run)) (ThrottleStreamIO.throttles self) = [(key, pair)] /\
  throttle_at (Asyncio.state (snd run)) (write pair) =
    mkThrottle (Some L) r (Some (Asyncio.time w)) (len c) /\
  drains (Asyncio.state (snd run)) (StreamIO.writer (ThrottleStreamIO.base self)) = [] /\
  Asyncio.time (snd run) == Asyncio.time w.
Proof.
  intros Hd Hth HL Hr Hto Hdr run. unfold run. rewrite write_run. cbv zeta.
  destruct (stream_wait_single self Write w key pair L Hd) as (Hst & Hge & Hfin & Hone);
    [unfold Throttle.limit; simpl getattr; now rewrite Hth | exact HL |].
  simpl getattr in Hfin, Hone.
  set (w1 := snd (ThrottleStreamIO.wait self Write w)) in *.
  assert (Hw : Throttle.wait (write pair) w = (Ok tt, w)).
  { unfold Throttle.wait. rewrite Hth. reflexivity. }
  rewrite Hw in Hone. cbn [snd] in Hone.
  assert (Ht1 : Asyncio.time w1 = Asyncio.time w) by (destruct Hone; assumption).
  rewrite raw_write_instant; [| exact Hto | rewrite Hst; exact Hdr].
  set (w2 := Asyncio.mkWorld _ _ _).
  destruct (stream_append_spec self Write c (Asyncio.time w1) w2)
    as (Hok & Htime & _ & Hdict & Hthr).
  destruct (stream_append_frame self Write c (Asyncio.time w1) w2) as (_ & _ & Hdrains & _).
  assert (Hd2 : dict_at (Asyncio.state w2) (ThrottleStreamIO.throttles self) = [(key, pair)]).
  { unfold w2. simpl. rewrite Hst. exact Hd. }
  cbn [fst snd].
  split; [reflexivity |].
  split; [rewrite Hdict; exact Hd2 |].
  split.
  - rewrite Hthr, Hd2. unfold values. simpl map. simpl getattr.
    rewrite single_side_count. simpl Nat.iter.
    rewrite Hst, Hth, Ht1. now apply append_obj_fresh.
  - split.
    + rewrite Hdrains. unfold w2. simpl. rewrite Hst. exact Hdr.
    + rewrite Htime. unfold w2. simpl. rewrite Ht1. lra.
Qed.

Lemma writes_paced (self : ThrottleStreamIO.t) (key : string) (pair : StreamThrottleObj)
    (L : Z) (r t0 : Q) (chunks : list bytes) :
  forall (w : World) (sum : Z),
    dict_at (Asyncio.state w) (ThrottleStreamIO.throttles self) = [(key, pair)] ->
    throttle_at (Asyncio.state w) (write pair) = mkThrottle (Some L) r (Some t0) sum ->
    (0 < L)%Z ->
    (Asyncio.time w <= t0 + inject_Z sum / inject_Z L)%Q ->
    (inject_Z (sum + total_len chunks) / inject_Z L <= r)%Q ->
    StreamIO.write_timeout (ThrottleStreamIO.base self) = None ->
    drains (Asyncio.state w) (StreamIO.writer (ThrottleStreamIO.base self)) = [] ->
    let run := for_each chunks (ThrottleStreamIO.write self) w in
    fst run = Ok tt /\
    dict_at (Asyncio.state (snd run)) (ThrottleStreamIO.throttles self) = [(key, pair)] /\
    throttle_at (Asyncio.state (snd run)) (write pair) =
      mkThrottle (Some L) r (Some t0) (sum + total_len chunks) /\
    (Asyncio.time (snd run) <= t0 + inject_Z (sum + total_len chunks) / inject_Z L)%Q.
Proof.
  induction chunks as [| c rest IH]; intros w sum Hd Hth HL Hnow Hr Hto Hdr run.
  - unfold run. simpl. rewrite Z.add_0_r. repeat split; assumption.
  - unfold run. simpl for_each. unfold Asyncio.bind.
    simpl total_len in Hr |- *.
    pose proof (len_nonneg c) as Hc. pose proof (total_len_nonneg rest) as Hrest.
    assert (Hsr : (inject_Z sum / inject_Z L <= r)%Q).
    { eapply Qle_trans; [| exact Hr]. apply div_mono_num; lia. }
    destruct (write_step_paced self w key pair L r t0 sum c Hd Hth HL Hnow Hsr Hto Hdr)
      as (Hok & Hd1 & Hth1 & Hdr1 & Ht1).
    destruct (ThrottleStreamIO.write self c w) as [res w1]. cbn [fst snd] in *.
    subst res.
    assert (Hnow1 : (Asyncio.time w1 <= t0 + inject_Z (sum + len c) / inject_Z L)%Q).
    { rewrite Ht1. apply Qplus_le_r. apply div_mono_num; lia. }
    assert (Hr1 : (inject_Z (sum + len c + total_len rest) / inject_Z L <= r)%Q).
    { now rewrite <- Z.add_assoc. }
    destruct (IH w1 (sum + len c)%Z Hd1 Hth1 HL Hnow1 Hr1 Hto Hdr1)
      as (Hok2 & Hd2 & Hth2 & Ht2).
    rewrite Z.add_assoc. repeat split; assumption.
Qed.

(** X1. Through a stream whose only pair has a write side with the limit
    [L > 0] and no history, over a writer that drains at once and without a
    write timeout: after writing chunks of [N] bytes in all back to back,
    the stream is free for the next write exactly [N / L] after the first
    write began, and the throttle has accumulated [N] bytes; this holds
    while [N / L] stays within the reset rate. *)
Theorem write_rate_is_the_limit :
  forall (self : ThrottleStreamIO.t) (w : World) (key : string) (pair : StreamThrottleObj)
         (L : Z) (r : Q) (chunks : list bytes),
    dict_at (Asyncio.state w) (ThrottleStreamIO.throttles self) = [(key, pair)] ->
    throttle_at (Asyncio.state w) (write pair) = mkThrottle (Some L) r None 0 ->
    (0 < L)%Z ->
    (0 <= r)%Q ->
    StreamIO.write_timeout (ThrottleStreamIO.base self) = None ->
    drains (Asyncio.state w) (StreamIO.writer (ThrottleStreamIO.base self)) = [] ->
    (inject_Z (total_len chunks) / inject_Z L <= r)%Q ->
    let run := (for_each chunks (ThrottleStreamIO.write self) ;;
                ThrottleStreamIO.wait self Write) w in
    fst run = Ok tt /\
    Asyncio.time (snd run) == Asyncio.time w + inject_Z (total_len chunks) / inject_Z L /\
    _sum (throttle_at (Asyncio.state (snd run)) (write pair)) = total_len chunks.
Proof.
  intros self w key pair L r chunks Hd Hth HL Hr Hto Hdr Hrate run.
  assert (Hzero : inject_Z 0 / inject_Z L == 0).
  { unfold Qdiv. rewrite Qmult_0_l. reflexivity. }
  unfold run, Asyncio.bind.
  destruct chunks as [| c rest].
  - simpl for_each. unfold Asyncio.ret. rewrite stream_wait_run. cbn [fst snd].
    destruct (stream_wait_single self Write w key pair L Hd) as (Hst & _ & _ & Hone);
      [unfold Throttle.limit; simpl getattr; now rewrite Hth | exact HL |].
    simpl getattr in Hone.
    assert (Hw : Throttle.wait (write pair) w = (Ok tt, w)).
    { unfold Throttle.wait. rewrite Hth. reflexivity. }
    rewrite Hw in Hone. cbn [snd] in Hone.
    split; [reflexivity |]. split.
    + assert (E : Asyncio.time (snd (ThrottleStreamIO.wait self Write w)) = Asyncio.time w)
        by (destruct Hone; assumption).
      rewrite E. simpl total_len. rewrite Hzero. lra.
    + rewrite Hst, Hth. reflexivity.
  - simpl for_each. unfold Asyncio.bind. simpl total_len in Hrate |- *.
    pose proof (len_nonneg c) as Hc. pose proof (total_len_nonneg rest) as Hrest.
    destruct (write_step_fresh self w key pair L r c Hd Hth HL Hr Hto Hdr)
      as (Hok & Hd1 & Hth1 & Hdr1 & Ht1).
    destruct (ThrottleStreamIO.write self c w) as [res w1]. cbn [fst snd] in *.
    subst res.
    assert (Hnow1 : (Asyncio.time w1 <= Asyncio.time w + inject_Z (len c) / inject_Z L)%Q).
    { rewrite Ht1.
      assert (H0 : (inject_Z 0 / inject_Z L <= inject_Z (len c) / inject_Z L)%Q)
        by (apply div_mono_num; lia).
      rewrite Hzero in H0. lra. }
    destruct (writes_paced self key pair L r (Asyncio.time w) rest w1 (len c)
                Hd1 Hth1 HL Hnow1 Hrate Hto Hdr1) as (Hok2 & Hd2 & Hth2 & Ht2).
    destruct (for_each rest (ThrottleStreamIO.write self) w1) as [res w2].
    cbn [fst snd] in *. subst res.
    rewrite stream_wait_run. cbn [fst snd].
    destruct (stream_wait_single self Write w2 key pair L Hd2) as (Hst & _ & Hfin & Hone);
      [unfold Throttle.limit; simpl getattr; now rewrite Hth2 | exact HL |].
    simpl getattr in Hfin, Hone.
    pose proof (wait_limited (write pair) w2 L (Asyncio.time w)) as Hw. cbv zeta in Hw.
    rewrite Hth2 in Hw. specialize (Hw eq_refl HL eq_refl). cbn [_sum] in Hw.
    rewrite Hw in Hfin, Hone. cbn [snd after_sleep Asyncio.time] in Hfin, Hone.
    pose proof (py_max0_of_nonneg
                  (Asyncio.time w + inject_Z (len c + total_len rest) / inject_Z L
                   - Asyncio.time w2) ltac:(lra)) as Hmax.
    split; [reflexivity |]. split.
    + destruct Hone as [E | E]; rewrite E in Hfin |- *; lra.
    + rewrite Hst, Hth2. reflexivity.
Qed.

Lemma write_rate_is_the_limit_witness :
  let self := ThrottleStreamIO.__init__ 0 0 None None None None in
  let start :=
    (pair <- StreamThrottle.from_limits None (Some 1000%Z) ;;
     ThrottleStreamIO.throttles_setitem self "session" pair)
      (Asyncio.mkWorld 3 [] ThrottleStreamIO.loaded) in
  let w := snd start in
  let chunks := [chunk 500; chunk 500; chunk 500] in
  let run := (for_each chunks (ThrottleStreamIO.write self) ;;
              ThrottleStreamIO.wait self Write) w in
  fst run = Ok tt /\
  Asyncio.time (snd run) == 3 + inject_Z 1500 / inject_Z 1000 /\
  _sum (throttle_at (Asyncio.state (snd run)) 2%nat) = 1500%Z.
Proof.
  intros self start w chunks run.
  apply (write_rate_is_the_limit self w "session"%string (mkStreamThrottle 1%nat 2%nat)
           1000%Z 10 chunks);
    [reflexivity | reflexivity | lia | unfold Qle; simpl; lia
    | reflexivity | reflexivity | vm_compute; discriminate].
Defined.

(** ** Streams without limits *)

Lemma wait_returns_at_once (a : addr) (w : World) :
  unlimited (throttle_at (Asyncio.state w) a) \/ _start (throttle_at (Asyncio.state w) a) = None ->
  Throttle.wait a w = (Ok tt, w).
Proof.
  unfold Throttle.wait, unlimited.
  destruct (_limit (throttle_at (Asyncio.state w) a)) as [l |]; [| reflexivity].
  destruct (_start (throttle_at (Asyncio.state w) a)) as [s |]; [| reflexivity].
  intros [H | H]; [| discriminate H].
  destruct (0 <? l)%Z eqn:E; [| reflexivity]. apply Z.ltb_lt in E. lia.
Qed.

Lemma set_time_id {S} (w : Asyncio.World S) : Asyncio.set_time (Asyncio.time w) w = w.
Proof. destruct w. reflexivity. Qed.

Lemma later_same (c : Q) : later c c = c.
Proof. unfold later. destruct (Qle_bool c c); reflexivity. Qed.

Lemma run_tasks_without_sleep (addrs : list addr) :
  forall (c : Q) (w : World),
    (forall a, In a addrs ->
               unlimited (throttle_at (Asyncio.state w) a) \/
               _start (throttle_at (Asyncio.state w) a) = None) ->
    Asyncio.run_tasks c (map Throttle.wait addrs) c w = Asyncio.set_time c w.
Proof.
  induction addrs as [| a rest IH]; intros c w H; [reflexivity |].
  simpl. rewrite (wait_returns_at_once a (Asyncio.set_time c w)) by (apply H; now left).
  cbn [snd]. change (Asyncio.time (Asyncio.set_time c w)) with c. rewrite later_same.
  rewrite IH; [reflexivity |]. intros b Hb. apply H. now right.
Qed.

Lemma stream_wait_without_sleep (self : ThrottleStreamIO.t) (name : Direction) (w : World) :
  (forall a, In a (ThrottleStreamIO.wait_tasks self name (Asyncio.state w)) ->
             unlimited (throttle_at (Asyncio.state w) a) \/
             _start (throttle_at (Asyncio.state w) a) = None) ->
  ThrottleStreamIO.wait self name w = (Ok tt, w).
Proof.
  intro H. unfold ThrottleStreamIO.wait.
  destruct (ThrottleStreamIO.wait_tasks self name (Asyncio.state w)) as [| a rest] eqn:E;
    [reflexivity |].
  change (map Throttle.wait (a :: rest)) with (Throttle.wait a :: map Throttle.wait rest).
  cbv iota beta.
  change (Throttle.wait a :: map Throttle.wait rest) with (map Throttle.wait (a :: rest)).
  unfold Asyncio.wait. rewrite run_tasks_without_sleep by exact H.
  now rewrite set_time_id.
Qed.

Lemma iter_fixed {A} (f : A -> A) (n : nat) (x : A) : f x = x -> Nat.iter n f x = x.
Proof. intro H. induction n as [| n IH]; simpl; [reflexivity | now rewrite IH]. Qed.

Lemma same_store_refl (s : Store) : same_store s s.
Proof. repeat split. Qed.

Lemma stream_append_unlimited (self : ThrottleStreamIO.t) (name : Direction) (data : bytes)
    (start : Q) (w : World) :
  (forall throttle,
      In throttle (values (dict_at (Asyncio.state w) (ThrottleStreamIO.throttles self))) ->
      unlimited (throttle_at (Asyncio.state w) (getattr throttle name))) ->
  same_run (ThrottleStreamIO.append self name data start w) (Ok tt, w).
Proof.
  intro H.
  destruct (stream_append_spec self name data start w) as (Hok & Ht & Hsl & Hd & Hth).
  destruct (stream_append_frame self name data start w) as (Hn & Hi & Hdr & Hw).
  unfold same_run, same_store. cbn [fst snd].
  repeat split; try assumption.
  intro a. rewrite Hth.
  destruct (in_dec Nat.eq_dec a
              (map (fun throttle => getattr throttle name)
                   (values (dict_at (Asyncio.state w) (ThrottleStreamIO.throttles self)))))
    as [Hin | Hout].
  - apply in_map_iff in Hin. destruct Hin as (p & <- & Hp).
    apply iter_fixed. apply append_obj_unlimited. now apply H.
  - apply (count_occ_not_In Nat.eq_dec) in Hout. rewrite Hout. reflexivity.
Qed.

Lemma read_unthrottled (self : ThrottleStreamIO.t) (count : Z) (w : World) :
  (forall throttle,
      In throttle (values (dict_at (Asyncio.state w) (ThrottleStreamIO.throttles self))) ->
      unlimited (throttle_at (Asyncio.state w) (getattr throttle Read))) ->
  same_run (ThrottleStreamIO.read self count w)
           (Asyncio.await (StreamIO.read (ThrottleStreamIO.base self) count) w).
Proof.
  intro H. rewrite read_run.
  rewrite stream_wait_without_sleep.
  2:{ intros a Ha. apply wait_tasks_In in Ha. destruct Ha as (p & Hp & -> & _).
      left. now apply H. }
  cbv zeta. cbn [snd].
  destruct (raw_read_keeps_objects (ThrottleStreamIO.base self) count w) as [Hth Hd].
  destruct (Asyncio.await (StreamIO.read (ThrottleStreamIO.base self) count) w)
    as [[data | e] w2]; [| repeat split].
  cbn [snd] in Hth, Hd.
  destruct (stream_append_unlimited self Read data (Asyncio.time w) w2) as (_ & Ht & Hsl & Hst).
  { intros p Hp. rewrite Hd in Hp. rewrite Hth. now apply H. }
  unfold same_run. cbn [fst snd] in *. auto.
Qed.

Lemma write_unthrottled (self : ThrottleStreamIO.t) (data : bytes) (w : World) :
  (forall throttle,
      In throttle (values (dict_at (Asyncio.state w) (ThrottleStreamIO.throttles self))) ->
      unlimited (throttle_at (Asyncio.state w) (getattr throttle Write))) ->
  same_run (ThrottleStreamIO.write self data w)
           (Asyncio.await (StreamIO.write (ThrottleStreamIO.base self) data) w).
Proof.
  intro H. rewrite write_run.
  rewrite stream_wait_without_sleep.
  2:{ intros a Ha. apply wait_tasks_In in Ha. destruct Ha as (p & Hp & -> & _).
      left. now apply H. }
  cbv zeta. cbn [snd].
  destruct (raw_write_keeps_objects (ThrottleStreamIO.base self) data w) as [Hth Hd].
  destruct (Asyncio.await (StreamIO.write (ThrottleStreamIO.base self) data) w)
    as [[[] | e] w2]; [| repeat split].
  cbn [snd] in Hth, Hd.
  destruct (stream_append_unlimited self Write data (Asyncio.time w) w2) as (_ & Ht & Hsl & Hst).
  { intros p Hp. rewrite Hd in Hp. rewrite Hth. now apply H. }
  unfold same_run. cbn [fst snd] in *. auto.
Qed.

(** X3. A [ThrottleStreamIO] whose pairs all have an unlimited side for a
    direction (limit unset or not positive; no pairs at all is a case of
    it) behaves in that direction as the [StreamIO] under it: [read],
    [readline] and [write] give the same result at the same time, sleep
    never, and leave every throttle as it was. *)
Theorem unlimited_stream_is_the_raw_stream :
  forall (self : ThrottleStreamIO.t) (w : World),
    let free := fun name : Direction =>
      forall throttle,
        In throttle (values (dict_at (Asyncio.state w) (ThrottleStreamIO.throttles self))) ->
        unlimited (throttle_at (Asyncio.state w) (getattr throttle name)) in
    (free Read ->
     forall count,
       same_run (ThrottleStreamIO.read self count w)
                (Asyncio.await (StreamIO.read (ThrottleStreamIO.base self) count) w)) /\
    (free Read ->
     same_run (ThrottleStreamIO.readline self w)
              (Asyncio.await (StreamIO.readline (ThrottleStreamIO.base self) tt) w)) /\
    (free Write ->
     forall data,
       same_run (ThrottleStreamIO.write self data w)
                (Asyncio.await (StreamIO.write (ThrottleStreamIO.base self) data) w)).
Proof.
  intros self w free. split; [| split].
  - intros H count. now apply read_unthrottled.
  - intro H. exact (read_unthrottled self 0%Z w H).
  - intros H data. now apply write_unthrottled.
Qed.

Lemma unlimited_stream_is_the_raw_stream_witness :
  same_run (ThrottleStreamIO.write example_stream (chunk 3) example_world)
           (Asyncio.await (StreamIO.write (ThrottleStreamIO.base example_stream) (chunk 3))
                          example_world) /\
  same_run (ThrottleStreamIO.read example_stream 8192
              (Asyncio.mkWorld 0 [] ThrottleStreamIO.loaded))
           (Asyncio.await (StreamIO.read (ThrottleStreamIO.base example_stream) 8192)
                          (Asyncio.mkWorld 0 [] ThrottleStreamIO.loaded)) /\
  same_run (ThrottleStreamIO.readline example_stream
              (Asyncio.mkWorld 0 [] ThrottleStreamIO.loaded))
           (Asyncio.await (StreamIO.readline (ThrottleStreamIO.base example_stream) tt)
                          (Asyncio.mkWorld 0 [] ThrottleStreamIO.loaded)).
Proof.
  split; [| split].
  - apply (proj2 (proj2 (unlimited_stream_is_the_raw_stream example_stream example_world))).
    intros p [<- | [<- | []]]; exact I.
  - apply (proj1 (unlimited_stream_is_the_raw_stream example_stream
                    (Asyncio.mkWorld 0 [] ThrottleStreamIO.loaded))).
    intros p [].
  - apply (proj1 (proj2 (unlimited_stream_is_the_raw_stream example_stream
                           (Asyncio.mkWorld 0 [] ThrottleStreamIO.loaded)))).
    intros p [].
Defined.

(** ** Timeouts *)

Lemma in_time_not_expired (timeout : option Q) (d : Q) :
  in_time timeout d ->
  match timeout with
  | None => True
  | Some t => Qle_bool t 0 = false /\ Qle_bool t d = false
  end.
Proof.
  destruct timeout as [t |]; [| trivial]. intros [Hpos Hd]. split.
  - destruct (Qle_bool t 0) eqn:E; [| reflexivity].
    apply Qle_bool_iff in E. exfalso. exact (Qlt_not_le _ _ Hpos E).
  - destruct (Qle_bool t d) eqn:E; [| reflexivity].
    apply Qle_bool_iff in E. exfalso. exact (Qlt_not_le _ _ Hd E).
Qed.

Lemma wait_for_in_time {S A} (coro : Asyncio.Coroutine S A) (timeout : option Q)
    (w : Asyncio.World S) :
  in_time timeout (Asyncio.took (coro w)) ->
  Asyncio.wait_for coro timeout w = coro w.
Proof.
  intro H. apply in_time_not_expired in H. unfold Asyncio.wait_for.
  destruct timeout as [t |]; [| reflexivity]. destruct H as [-> ->]. reflexivity.
Qed.

Lemma wait_for_bounded {S A} (coro : Asyncio.Coroutine S A) (t : Q) (w : Asyncio.World S) :
  (Asyncio.took (Asyncio.wait_for coro (Some t) w) <= py_max0 t)%Q.
Proof.
  unfold Asyncio.wait_for.
  destruct (Qle_bool t 0) eqn:E0; [apply py_max0_nonneg |].
  assert (Hpos : (0 < t)%Q).
  { apply Qnot_le_lt. intro H. apply Qle_bool_iff in H. congruence. }
  assert (Hmax : py_max0 t = t).
  { unfold py_max0. apply Qlt_bool_true in Hpos. now rewrite Hpos. }
  rewrite Hmax.
  destruct (Qle_bool t (Asyncio.took (coro w))) eqn:E1; [apply Qle_refl |].
  apply Qlt_le_weak, Qnot_le_lt. intro H. apply Qle_bool_iff in H. congruence.
Qed.

(** X5. When the read timeout of a [ThrottleStreamIO] expires before the
    transport delivers, [read] raises [TimeoutError] and the store is
    untouched: no throttle has counted anything and the bytes still to come
    are all still to come. When the write timeout (positive) expires before
    the drain is done, [write] raises [TimeoutError] too and no throttle has
    counted anything, although the data has been handed to the writer. *)
Theorem timed_out_io_is_not_accounted :
  forall (self : ThrottleStreamIO.t) (w : World) (t d : Q),
    (t < d)%Q ->
    (forall count r rest,
        StreamIO.read_timeout (ThrottleStreamIO.base self) = Some t ->
        incoming (Asyncio.state w) (StreamIO.reader (ThrottleStreamIO.base self)) =
          (d, r) :: rest ->
        let run := ThrottleStreamIO.read self count w in
        fst run = Raise TimeoutError /\ Asyncio.state (snd run) = Asyncio.state w) /\
    (forall data r rest,
        StreamIO.write_timeout (ThrottleStreamIO.base self) = Some t ->
        (0 < t)%Q ->
        drains (Asyncio.state w) (StreamIO.writer (ThrottleStreamIO.base self)) =
          (d, r) :: rest ->
        let run := ThrottleStreamIO.write self data w in
        let wr := StreamIO.writer (ThrottleStreamIO.base self) in
        fst run = Raise TimeoutError /\
        throttle_at (Asyncio.state (snd run)) = throttle_at (Asyncio.state w) /\
        drains (Asyncio.state (snd run)) = drains (Asyncio.state w) /\
        written (Asyncio.state (snd run)) wr = written (Asyncio.state w) wr ++ [data]).
Proof.
  intros self w t d Hlate. apply Qlt_le_weak, Qle_bool_iff in Hlate. split.
  - intros count r rest Hto Hin run. unfold run. rewrite read_run. cbv zeta.
    destruct (stream_wait_spec self Read w) as (Hst & _).
    set (w1 := snd (ThrottleStreamIO.wait self Read w)) in *.
    unfold Asyncio.await, StreamIO.read, with_timeout, Asyncio.wait_for,
      StreamIO.reader_read.
    cbv zeta. rewrite Hto, Hst, Hin.
    destruct (Qle_bool t 0); cbn [Asyncio.took]; [| rewrite Hlate];
      simpl; split; auto.
  - intros data r rest Hto Hpos Hdr run wr. unfold run. rewrite write_run. cbv zeta.
    destruct (stream_wait_spec self Write w) as (Hst & _).
    set (w1 := snd (ThrottleStreamIO.wait self Write w)) in *.
    unfold Asyncio.await, StreamIO.write, with_timeout, Asyncio.wait_for,
      StreamIO.writer_write_drain.
    cbv zeta. rewrite Hto, Hst, Hdr.
    assert (E : Qle_bool t 0 = false).
    { destruct (Qle_bool t 0) eqn:E; [| reflexivity].
      apply Qle_bool_iff in E. exfalso. exact (Qlt_not_le _ _ Hpos E). }
    rewrite E. cbn [Asyncio.took]. rewrite Hlate. simpl.
    repeat split. unfold wr. apply upd_same.
Qed.

Lemma timed_out_io_is_not_accounted_witness :
  let self := ThrottleStreamIO.__init__ 0 0 None (Some (1 # 4)) (Some (1 # 4)) (Some (1 # 4)) in
  let w := Asyncio.mkWorld 6 []
             (mkStore (throttle_at (Asyncio.state example_world))
                      (dict_at (Asyncio.state example_world))
                      (next_addr (Asyncio.state example_world))
                      (incoming (Asyncio.state example_world))
                      (upd (drains (Asyncio.state example_world)) 0%nat [(1 # 2, Ok tt)])
                      (written (Asyncio.state example_world))) in
  (fst (ThrottleStreamIO.read self 8192 w) = Raise TimeoutError /\
   Asyncio.state (snd (ThrottleStreamIO.read self 8192 w)) = Asyncio.state w) /\
  (fst (ThrottleStreamIO.write self (chunk 3) w) = Raise TimeoutError /\
   written (Asyncio.state (snd (ThrottleStreamIO.write self (chunk 3) w))) 0%nat = [chunk 3]).
Proof.
  intros self w.
  pose proof (timed_out_io_is_not_accounted self w (1 # 4) (1 # 2) eq_refl) as [Hread Hwrite].
  split.
  - apply (Hread 8192%Z (Ok ["a"%byte; "b"%byte]) []); reflexivity.
  - destruct (Hwrite (chunk 3) (Ok tt) [] eq_refl eq_refl eq_refl) as (H1 & _ & _ & H2).
    split; [exact H1 | exact H2].
Defined.

(** X6. [readexactly] of a [ThrottleStreamIO] is the method of [StreamIO]:
    whatever limits its pairs have, it waits for no throttle, so it never
    sleeps, and it counts into none, and it leaves the [throttles] as they
    are; it takes the time of the transport, within the read timeout. *)
Theorem readexactly_is_not_throttled :
  forall (self : ThrottleStreamIO.t) (count : Z) (w : World),
    let run := ThrottleStreamIO.readexactly self count w in
    let raw := StreamIO.reader_read (StreamIO.reader (ThrottleStreamIO.base self)) w in
    Asyncio.sleeps (snd run) = Asyncio.sleeps w /\
    throttle_at (Asyncio.state (snd run)) = throttle_at (Asyncio.state w) /\
    dict_at (Asyncio.state (snd run)) = dict_at (Asyncio.state w) /\
    (fst run = Asyncio.outcome raw \/ fst run = Raise TimeoutError) /\
    (forall t, StreamIO.read_timeout (ThrottleStreamIO.base self) = Some t ->
               (Asyncio.time (snd run) <= Asyncio.time w + py_max0 t)%Q).
Proof.
  intros self count w run raw.
  destruct (raw_read_keeps_objects (ThrottleStreamIO.base self) count w) as [Hth Hd].
  split; [reflexivity |]. split; [exact Hth |]. split; [exact Hd |].
  split.
  - unfold run, raw, ThrottleStreamIO.readexactly, Asyncio.await, StreamIO.readexactly,
      with_timeout, Asyncio.wait_for.
    cbv zeta. cbn [fst].
    destruct (StreamIO.read_timeout (ThrottleStreamIO.base self)) as [t |]; [| now left].
    destruct (Qle_bool t 0); [now right |].
    destruct (Qle_bool t _); [now right | now left].
  - intros t Ht. unfold run, ThrottleStreamIO.readexactly, Asyncio.await. cbn [snd Asyncio.time].
    apply Qplus_le_r. unfold StreamIO.readexactly, with_timeout. cbv zeta. rewrite Ht.
    apply wait_for_bounded.
Qed.

Lemma readexactly_is_not_throttled_witness :
  let self := ThrottleStreamIO.__init__ 0 0 None (Some 2) None None in
  let run := ThrottleStreamIO.readexactly self 2 example_world in
  fst run = Ok ["a"%byte; "b"%byte] /\
  Asyncio.sleeps (snd run) = [] /\
  (Asyncio.time (snd run) <= 6 + py_max0 2)%Q /\
  Asyncio.sleeps (snd (ThrottleStreamIO.read self 2 example_world)) <> [].
Proof.
  intros self run.
  destruct (readexactly_is_not_throttled self 2%Z example_world) as (Hs & _ & _ & _ & Ht).
  split; [reflexivity |]. split; [exact Hs |].
  split; [exact (Ht 2 eq_refl) |].
  vm_compute. discriminate.
Defined.

(** ** Iterating a stream *)

Lemma read_delivers (self : ThrottleStreamIO.t) (count : Z) (w : World)
    (d : Q) (r : Result bytes) (rest : list (Q * Result bytes)) :
  incoming (Asyncio.state w) (StreamIO.reader (ThrottleStreamIO.base self)) = (d, r) :: rest ->
  in_time (StreamIO.read_timeout (ThrottleStreamIO.base self)) d ->
  fst (ThrottleStreamIO.read self count w) = r /\
  incoming (Asyncio.state (snd (ThrottleStreamIO.read self count w)))
           (StreamIO.reader (ThrottleStreamIO.base self)) = rest.
Proof.
  intros Hin Htime. rewrite read_run. cbv zeta.
  destruct (stream_wait_spec self Read w) as (Hst & _).
  set (w1 := snd (ThrottleStreamIO.wait self Read w)) in *.
  assert (Hraw : StreamIO.reader_read (StreamIO.reader (ThrottleStreamIO.base self)) w1 =
                 Asyncio.mkPending (fun s => s) d r
                   (fun s => mkStore (throttle_at s) (dict_at s) (next_addr s)
                      (upd (incoming s) (StreamIO.reader (ThrottleStreamIO.base self))
                           (tl (incoming s (StreamIO.reader (ThrottleStreamIO.base self)))))
                      (drains s) (written s))).
  { unfold StreamIO.reader_read. cbv zeta. rewrite Hst, Hin. reflexivity. }
  unfold Asyncio.await, StreamIO.read, with_timeout. cbv zeta.
  rewrite wait_for_in_time by (rewrite Hraw; exact Htime).
  rewrite Hraw. cbn [Asyncio.outcome Asyncio.took Asyncio.commit Asyncio.prefix].
  destruct r as [data | e].
  - cbn [fst snd]. split; [reflexivity |].
    destruct (stream_append_frame self Read data (Asyncio.time w1)
                (Asyncio.mkWorld (Asyncio.time w1 + d) (Asyncio.sleeps w1)
                   (mkStore (throttle_at (Asyncio.state w1)) (dict_at (Asyncio.state w1))
                      (next_addr (Asyncio.state w1))
                      (upd (incoming (Asyncio.state w1))
                           (StreamIO.reader (ThrottleStreamIO.base self))
                           (tl (incoming (Asyncio.state w1)
                                  (StreamIO.reader (ThrottleStreamIO.base self)))))
                      (drains (Asyncio.state w1)) (written (Asyncio.state w1)))))
      as (_ & Hi & _).
    rewrite Hi. simpl. rewrite upd_same, Hst, Hin. reflexivity.
  - cbn [fst snd Asyncio.state incoming]. split; [reflexivity |].
    rewrite upd_same, Hst, Hin. reflexivity.
Qed.

Lemma read_at_eof (self : ThrottleStreamIO.t) (count : Z) (w : World) :
  incoming (Asyncio.state w) (StreamIO.reader (ThrottleStreamIO.base self)) = [] ->
  in_time (StreamIO.read_timeout (ThrottleStreamIO.base self)) 0 ->
  fst (ThrottleStreamIO.read self count w) = Ok [].
Proof.
  intros Hin Htime. rewrite read_run. cbv zeta.
  destruct (stream_wait_spec self Read w) as (Hst & _).
  set (w1 := snd (ThrottleStreamIO.wait self Read w)) in *.
  assert (Hraw : StreamIO.reader_read (StreamIO.reader (ThrottleStreamIO.base self)) w1 =
                 Asyncio.mkPending (fun s => s) 0 (Ok []) (fun s => s)).
  { unfold StreamIO.reader_read. cbv zeta. rewrite Hst, Hin. reflexivity. }
  unfold Asyncio.await, StreamIO.read, with_timeout. cbv zeta.
  rewrite wait_for_in_time by (rewrite Hraw; exact Htime).
  rewrite Hraw. reflexivity.
Qed.

Lemma reads_yield_feed (self : ThrottleStreamIO.t) (count : Z) (feed : list (Q * bytes)) :
  forall (w : World) (tail : list (Q * Result bytes)),
    incoming (Asyncio.state w) (StreamIO.reader (ThrottleStreamIO.base self)) =
      map (fun dc => (fst dc, Ok (snd dc))) feed ++ tail ->
    Forall (fun dc => in_time (StreamIO.read_timeout (ThrottleStreamIO.base self)) (fst dc) /\
                      bytes_truthy (snd dc) = true) feed ->
    exists w1,
      yields (AsyncStreamIterator.__anext__ bytes_truthy
                (ThrottleStreamIO.iter_by_block self count)) w (map snd feed) w1 /\
      incoming (Asyncio.state w1) (StreamIO.reader (ThrottleStreamIO.base self)) = tail.
Proof.
  induction feed as [| [d c] rest IH]; intros w tail Hin Hall.
  - exists w. split; [reflexivity | exact Hin].
  - inversion Hall as [| ? ? [Htime Htrue] Hrest]; subst. simpl in Hin, Htime, Htrue.
    destruct (read_delivers self count w d (Ok c) _ Hin Htime) as [Hres Hnext].
    destruct (ThrottleStreamIO.read self count w) as [res w1] eqn:E.
    cbn [fst snd] in Hres, Hnext. subst res.
    destruct (IH w1 tail Hnext Hrest) as (w2 & Hy & Hin2).
    exists w2. split; [| exact Hin2].
    simpl. exists w1. split; [| exact Hy].
    rewrite anext_of_read. cbn [AsyncStreamIterator.read_coro ThrottleStreamIO.iter_by_block].
    rewrite E, Htrue. reflexivity.
Qed.

(** X7. Iterating a [ThrottleStreamIO] by block or by line, when every
    read is done before the read timeout is over (a read that takes exactly
    the timeout is not: it raises [TimeoutError]): if the transport
    delivers non-empty chunks and then the end of file, the iteration
    produces exactly these chunks, in order, and ends; if after some chunks
    a read of the transport raises, the iteration raises that exception
    instead of ending, and what the transport had after that read is still
    to come. *)
Theorem iteration_yields_what_arrives :
  forall (self : ThrottleStreamIO.t) (count : Z) (w : World) (feed : list (Q * bytes))
         (fuel : nat),
    let rd := StreamIO.reader (ThrottleStreamIO.base self) in
    let timeout := StreamIO.read_timeout (ThrottleStreamIO.base self) in
    let by_block := AsyncStreamIterator.__anext__ bytes_truthy
                      (ThrottleStreamIO.iter_by_block self count) in
    let by_line := AsyncStreamIterator.__anext__ bytes_truthy
                     (ThrottleStreamIO.iter_by_line self) in
    let arrived := map (fun dc => (fst dc, Ok (snd dc))) feed in
    Forall (fun dc => in_time timeout (fst dc) /\ bytes_truthy (snd dc) = true) feed ->
    (List.length feed < fuel)%nat ->
    (incoming (Asyncio.state w) rd = arrived ->
     in_time timeout 0 ->
     exists w',
       async_for_append fuel by_block [] w = Some (Ok (map snd feed), w') /\
       async_for_append fuel by_line [] w = Some (Ok (map snd feed), w')) /\
    (forall d e rest,
        incoming (Asyncio.state w) rd = arrived ++ (d, Raise e) :: rest ->
        in_time timeout d ->
        e <> StopAsyncIteration ->
        exists w',
          async_for_append fuel by_block [] w = Some (Raise e, w') /\
          async_for_append fuel by_line [] w = Some (Raise e, w') /\
          incoming (Asyncio.state w') rd = rest).
Proof.
  intros self count w feed fuel rd timeout by_block by_line arrived Hall Hfuel.
  assert (Hlen : (List.length (map snd feed) < fuel)%nat) by now rewrite length_map.
  change by_line with by_block.
  split.
  - intros Hin Heof.
    destruct (reads_yield_feed self count feed w []) as (w1 & Hy & Hin1);
      [rewrite app_nil_r; exact Hin | exact Hall |].
    pose proof (read_at_eof self count w1 Hin1 Heof) as Hend.
    destruct (ThrottleStreamIO.read self count w1) as [res w2] eqn:E.
    cbn [fst] in Hend. subst res.
    exists w2.
    assert (Hstop : by_block w1 = (Raise StopAsyncIteration, w2)).
    { unfold by_block. rewrite anext_of_read.
      cbn [AsyncStreamIterator.read_coro ThrottleStreamIO.iter_by_block].
      rewrite E. reflexivity. }
    pose proof (async_for_yields by_block (map snd feed) [] w w1 w2 fuel Hy Hstop Hlen) as H.
    split; exact H.
  - intros d e rest Hin Htime He.
    destruct (reads_yield_feed self count feed w ((d, Raise e) :: rest)) as (w1 & Hy & Hin1);
      [exact Hin | exact Hall |].
    destruct (read_delivers self count w1 d (Raise e) rest Hin1 Htime) as [Hres Hnext].
    destruct (ThrottleStreamIO.read self count w1) as [res w2] eqn:E.
    cbn [fst snd] in Hres, Hnext. subst res.
    exists w2.
    assert (Hraise : by_block w1 = (Raise e, w2)).
    { unfold by_block. rewrite anext_of_read.
      cbn [AsyncStreamIterator.read_coro ThrottleStreamIO.iter_by_block].
      rewrite E. reflexivity. }
    pose proof (async_for_raises by_block (map snd feed) [] w w1 w2 e fuel
                  Hy Hraise He Hlen) as H.
    split; [exact H |]. split; [exact H | exact Hnext].
Qed.

Lemma iteration_yields_what_arrives_witness :
  let self := ThrottleStreamIO.__init__ 0 0 None (Some 2) None None in
  let by_block := AsyncStreamIterator.__anext__ bytes_truthy
                    (ThrottleStreamIO.iter_by_block self 8192) in
  exists w',
    async_for_append 2 by_block [] example_world = Some (Ok [["a"%byte; "b"%byte]], w').
Proof.
  intros self by_block.
  destruct (iteration_yields_what_arrives self 8192%Z example_world
              [(1 # 2, ["a"%byte; "b"%byte])] 2%nat) as [Hok _].
  - constructor; [| constructor]. split; [| reflexivity].
    split; reflexivity.
  - simpl. lia.
  - destruct Hok as (w' & H & _).
    + reflexivity.
    + split; reflexivity.
    + exists w'. exact H.
Defined.

(** ** wrap_with_container *)

(** X8. [wrap_with_container] never returns a string: a string comes back
    as the tuple that holds just it, so that listing the result gives the
    string itself and not its characters; anything else comes back as it
    is. Wrapping twice is wrapping once. *)
Theorem wrap_with_container_protects_strings :
  forall o : PyObj,
    isinstance_str (wrap_with_container o) = false /\
    wrap_with_container (wrap_with_container o) = wrap_with_container o /\
    (isinstance_str o = true -> py_list (wrap_with_container o) = Some [o]) /\
    (isinstance_str o = false -> wrap_with_container o = o).
Proof.
  intro o. destruct o; simpl; repeat split; try reflexivity; intro H; discriminate H.
Qed.

Lemma wrap_with_container_protects_strings_witness :
  py_list (wrap_with_container (PyStr "ab")) = Some [PyStr "ab"] /\
  py_list (PyStr "ab") = Some [PyStr "a"; PyStr "b"] /\
  wrap_with_container (PyList [PyStr "ab"]) = PyList [PyStr "ab"].
Proof.
  split; [| split].
  - apply (proj1 (proj2 (proj2 (wrap_with_container_protects_strings (PyStr "ab"))))).
    reflexivity.
  - reflexivity.
  - apply (proj2 (proj2 (proj2 (wrap_with_container_protects_strings
                                   (PyList [PyStr "ab"]))))).
    reflexivity.
Defined.

(** ** setlocale *)

(** X9. [with setlocale(name)] from a free lock, when the C library can set
    the current locale again: if the body ends, by returning or by raising,
    then after the statement the locale is the one from before, whatever
    the body has set, and the lock is free, and the statement ends as the
    body did; the body has run under the setting made for [name], with the
    lock held. If the library refuses [name], the statement raises without
    running the body, and the locale and the lock are as before. *)
Theorem setlocale_restores :
  forall (A : Type) (c_setlocale : string -> option string) (name : string)
         (body : string -> Locale.Process -> Locale.Outcome A * Locale.Process)
         (p : Locale.Process),
    Locale.lock_held p = false ->
    c_setlocale (Locale.lc_all p) = Some (Locale.lc_all p) ->
    let run := Locale.setlocale c_setlocale name body p in
    match c_setlocale name with
    | None => run = (Locale.Raised "locale.Error", p)
    | Some applied =>
        let inside := body applied (Locale.mkProcess applied true) in
        fst inside <> Locale.Blocked ->
        run = (fst inside, Locale.mkProcess (Locale.lc_all p) false)
    end.
Proof.
  intros A c_setlocale name body p Hfree Hold run.
  unfold run, Locale.setlocale. rewrite Hfree.
  cbn [Locale.lc_all Locale.locale_setlocale Locale.lock_held].
  destruct (c_setlocale name) as [applied |]; cbv beta iota zeta.
  - intro Hends.
    destruct (body applied (Locale.mkProcess applied true)) as [r p2].
    cbn [fst] in Hends |- *. rewrite Hold.
    destruct r; [reflexivity | reflexivity | congruence].
  - rewrite Hold. destruct p as [cur held]. simpl in *. subst held. reflexivity.
Qed.

Lemma setlocale_restores_witness :
  let c_setlocale := fun name : string =>
    if String.eqb name "C" then Some "C"%string
    else if String.eqb name "en_US.UTF-8" then Some "en_US.UTF-8"%string
    else None in
  let p := Locale.mkProcess "en_US.UTF-8" false in
  let body := fun (applied : string) (q : Locale.Process) =>
    (@Locale.Raised nat "ValueError", Locale.mkProcess "garbage" (Locale.lock_held q)) in
  Locale.setlocale c_setlocale "C" body p = (Locale.Raised "ValueError", p) /\
  Locale.setlocale c_setlocale "xx_XX" body p = (Locale.Raised "locale.Error", p).
Proof.
  intros c_setlocale p body. split.
  - apply (setlocale_restores nat c_setlocale "C"%string body p eq_refl eq_refl).
    discriminate.
  - exact (setlocale_restores nat c_setlocale "xx_XX"%string body p eq_refl eq_refl).
Defined.

(** X10. [with setlocale(...)] inside the body of a [with setlocale(...)]
    never ends: the lock is not reentrant, so the inner statement blocks in
    its [acquire], and the outer one with it; the inner body does not run.
    A statement entered while the lock is held blocks at once and changes
    nothing. *)
Theorem setlocale_does_not_nest :
  forall (A : Type) (c_setlocale : string -> option string) (outer inner : string)
         (body : string -> Locale.Process -> Locale.Outcome A * Locale.Process)
         (p : Locale.Process),
    (Locale.lock_held p = true ->
     Locale.setlocale c_setlocale outer body p = (Locale.Blocked, p)) /\
    (Locale.lock_held p = false ->
     forall applied,
       c_setlocale outer = Some applied ->
       Locale.setlocale c_setlocale outer
         (fun _ => Locale.setlocale c_setlocale inner body) p =
       (Locale.Blocked, Locale.mkProcess applied true)).
Proof.
  intros A c_setlocale outer inner body p. split.
  - intro H. unfold Locale.setlocale. now rewrite H.
  - intros H applied Happ. unfold Locale.setlocale at 1. rewrite H.
    cbn [Locale.lc_all Locale.locale_setlocale Locale.lock_held]. rewrite Happ.
    unfold Locale.setlocale. cbn [Locale.lock_held]. reflexivity.
Qed.

Lemma setlocale_does_not_nest_witness :
  let c_setlocale := fun name : string =>
    if String.eqb name "C" then Some "C"%string else None in
  let body := fun (applied : string) (q : Locale.Process) => (Locale.Returned applied, q) in
  Locale.setlocale c_setlocale "C" body (Locale.mkProcess "C" true) =
  (Locale.Blocked, Locale.mkProcess "C" true) /\
  Locale.setlocale c_setlocale "C" (fun _ => Locale.setlocale c_setlocale "C" body)
    (Locale.mkProcess "C" false) =
  (Locale.Blocked, Locale.mkProcess "C" true).
Proof.
  intros c_setlocale body. split.
  - apply (proj1 (setlocale_does_not_nest string c_setlocale "C"%string "C"%string body
                    (Locale.mkProcess "C" true))).
    reflexivity.
  - apply (proj2 (setlocale_does_not_nest string c_setlocale "C"%string "C"%string body
                    (Locale.mkProcess "C" false)) eq_refl "C"%string).
    reflexivity.
Defined.

(** ** async_enterable *)

(** X11. [async with wrapper(...) as v] calls the factory once and then
    enters, runs the body on, and exits the context manager that the
    factory returned, leaving the same world as [async with] on that
    manager itself, and ending in the same way, with one exception: when
    the body raises and the manager's [__aexit__] asks to swallow the
    exception, the wrapper does not pass that answer on, so the exception
    of the body is raised. A factory that raises ends the statement before
    anything is entered. *)
Theorem async_enterable_does_not_swallow :
  forall (S V A : Type) (f : Asyncio.M S (AsyncEnterable.ContextManager S V))
         (body : V -> Asyncio.M S A) (w : Asyncio.World S),
    match f w with
    | (Raise e, w1) => AsyncEnterable.async_with_wrapper f body w = (Raise e, w1)
    | (Ok mgr, w1) =>
        let wrapped := AsyncEnterable.async_with_wrapper f body w in
        let direct := AsyncEnterable.async_with_manager mgr body w1 in
        snd wrapped = snd direct /\
        fst wrapped <> Ok None /\
        (fst direct <> Ok None -> fst wrapped = fst direct) /\
        (fst direct = Ok None ->
         exists v w2 e,
           AsyncEnterable.cm_aenter mgr w1 = (Ok v, w2) /\
           fst (body v w2) = Raise e /\
           fst wrapped = Raise e)
    end.
Proof.
  intros S V A f body w.
  unfold AsyncEnterable.async_with_wrapper, AsyncEnterable.async_with_manager,
    AsyncEnterable.async_with, AsyncEnterable.__aenter__, AsyncEnterable.__aexit__,
    Asyncio.bind, Asyncio.ret.
  destruct (f w) as [[mgr | e] w1]; [| reflexivity].
  cbv zeta.
  destruct (AsyncEnterable.cm_aenter mgr w1) as [[v | e] w2].
  2:{ cbn. repeat split; try discriminate; intro H; congruence. }
  destruct (body v w2) as [[a | e] w3] eqn:Eb.
  - destruct (AsyncEnterable.cm_aexit mgr None w3) as [[b | e'] w4]; cbn;
      repeat split; try discriminate; intro H; congruence.
  - destruct (AsyncEnterable.cm_aexit mgr (Some e) w3) as [[[|] | e'] w4]; cbn;
      repeat split; try discriminate; try (intro H; congruence).
    intros _. exists v, w2, e. rewrite Eb. repeat split.
Qed.

Lemma async_enterable_does_not_swallow_witness :
  let mgr : AsyncEnterable.ContextManager nat Z :=
    AsyncEnterable.mkContextManager (Asyncio.ret 7%Z) (fun _ => Asyncio.ret true) in
  let f : Asyncio.M nat (AsyncEnterable.ContextManager nat Z) :=
    Asyncio.modify Datatypes.S ;; Asyncio.ret mgr in
  let body : Z -> Asyncio.M nat Z := fun _ => Asyncio.raise ConnectionResetError in
  let w := Asyncio.mkWorld 0 [] 0%nat in
  fst (AsyncEnterable.async_with_manager mgr body w) = Ok None /\
  fst (AsyncEnterable.async_with_wrapper f body w) = Raise ConnectionResetError /\
  Asyncio.state (snd (AsyncEnterable.async_with_wrapper f body w)) = 1%nat.
Proof.
  intros mgr f body w.
  pose proof (async_enterable_does_not_swallow nat Z Z f body w) as H.
  cbn in H. destruct H as (_ & _ & _ & Hswallowed).
  split; [reflexivity |]. split; [| reflexivity].
  destruct (Hswallowed eq_refl) as (v & w2 & e & _ & Hb & Hw).
  injection Hb as <-. exact Hw.
Defined.

(** ** Pairs *)

Lemma init_run (limit : option Z) (rate : Q) (w : World) :
  Throttle.__init__ limit rate w =
  (Ok (next_addr (Asyncio.state w)),
   Asyncio.mkWorld (Asyncio.time w) (Asyncio.sleeps w)
     (mkStore
        (upd (throttle_at (Asyncio.state w)) (next_addr (Asyncio.state w))
             (mkThrottle limit rate None 0))
        (dict_at (Asyncio.state w)) (S (next_addr (Asyncio.state w)))
        (incoming (Asyncio.state w)) (drains (Asyncio.state w))
        (written (Asyncio.state w)))).
Proof. reflexivity. Qed.

Lemma from_limits_run (rl wl : option Z) (w : World) :
  StreamThrottle.from_limits rl wl w =
  (Ok (mkStreamThrottle (next_addr (Asyncio.state w)) (S (next_addr (Asyncio.state w)))),
   Asyncio.mkWorld (Asyncio.time w) (Asyncio.sleeps w)
     (mkStore
        (upd (upd (throttle_at (Asyncio.state w)) (next_addr (Asyncio.state w))
                  (mkThrottle rl 10 None 0))
             (S (next_addr (Asyncio.state w))) (mkThrottle wl 10 None 0))
        (dict_at (Asyncio.state w)) (S (S (next_addr (Asyncio.state w))))
        (incoming (Asyncio.state w)) (drains (Asyncio.state w))
        (written (Asyncio.state w)))).
Proof. reflexivity. Qed.

(** X12. [StreamThrottle.from_limits] makes two new throttles, distinct
    from each other and from every object there was, with the given limits,
    the reset rate 10 and no history, and changes no object that existed.
    Being distinct, the sides do not charge each other: data counted on the
    read side leaves the write side as it was, and the other way round. *)
Theorem from_limits_makes_independent_sides :
  forall (read_speed_limit write_speed_limit : option Z) (w : World),
    let n := next_addr (Asyncio.state w) in
    let run := StreamThrottle.from_limits read_speed_limit write_speed_limit w in
    let s' := Asyncio.state (snd run) in
    fst run = Ok (mkStreamThrottle n (S n)) /\
    throttle_at s' n = mkThrottle read_speed_limit 10 None 0 /\
    throttle_at s' (S n) = mkThrottle write_speed_limit 10 None 0 /\
    next_addr s' = S (S n) /\
    (forall a, (a < n)%nat -> throttle_at s' a = throttle_at (Asyncio.state w) a) /\
    (forall data start,
        throttle_at (Asyncio.state (snd (Throttle.append n data start (snd run)))) (S n) =
        throttle_at s' (S n) /\
        throttle_at (Asyncio.state (snd (Throttle.append (S n) data start (snd run)))) n =
        throttle_at s' n).
Proof.
  intros rl wl w n run s'.
  unfold s', run. rewrite from_limits_run. fold n.
  cbn [fst snd Asyncio.state next_addr throttle_at].
  split; [reflexivity |].
  split; [rewrite upd_other by lia; apply upd_same |].
  split; [apply upd_same |].
  split; [reflexivity |].
  split; [intros a Ha; rewrite !upd_other by lia; reflexivity |].
  intros data start. unfold Throttle.append, Asyncio.modify, set_throttle.
  cbn [fst snd Asyncio.state next_addr throttle_at].
  split; apply upd_other; lia.
Qed.

Lemma from_limits_makes_independent_sides_witness :
  let run := StreamThrottle.from_limits (Some 100%Z) None example_world in
  fst run = Ok (mkStreamThrottle 5%nat 6%nat) /\
  throttle_at (Asyncio.state (snd run)) 1%nat = throttle_at (Asyncio.state example_world) 1%nat.
Proof.
  intro run.
  destruct (from_limits_makes_independent_sides (Some 100%Z) None example_world)
    as (H1 & _ & _ & _ & Hold & _).
  split; [exact H1 |]. apply Hold. simpl. lia.
Defined.

Lemma write_keeps_dicts (self : ThrottleStreamIO.t) (data : bytes) (w : World) :
  dict_at (Asyncio.state (snd (ThrottleStreamIO.write self data w))) =
  dict_at (Asyncio.state w).
Proof.
  rewrite write_run. cbv zeta.
  destruct (stream_wait_spec self Write w) as (Hst & _).
  pose proof (raw_write_keeps_objects (ThrottleStreamIO.base self) data
                (snd (ThrottleStreamIO.wait self Write w))) as [_ Hd].
  destruct (Asyncio.await (StreamIO.write (ThrottleStreamIO.base self) data) _)
    as [[u | e] w2]; cbn [snd] in Hd |- *.
  - destruct (stream_append_spec self Write data
                (Asyncio.time (snd (ThrottleStreamIO.wait self Write w))) w2)
      as (_ & _ & _ & Hd2 & _).
    rewrite Hd2, Hd, Hst. reflexivity.
  - rewrite Hd, Hst. reflexivity.
Qed.

(** X13. A pair that is in the [throttles] of two streams is one budget:
    after one stream has written a chunk of [n] bytes through a write side
    with the limit [L > 0] and no history, a write of the other stream
    waits until [n / L] after that first write began. *)
Theorem shared_pair_is_one_budget :
  forall (one other : ThrottleStreamIO.t) (w : World) (key1 key2 : string)
         (pair : StreamThrottleObj) (L : Z) (r : Q) (c : bytes),
    dict_at (Asyncio.state w) (ThrottleStreamIO.throttles one) = [(key1, pair)] ->
    dict_at (Asyncio.state w) (ThrottleStreamIO.throttles other) = [(key2, pair)] ->
    throttle_at (Asyncio.state w) (write pair) = mkThrottle (Some L) r None 0 ->
    (0 < L)%Z ->
    (0 <= r)%Q ->
    StreamIO.write_timeout (ThrottleStreamIO.base one) = None ->
    drains (Asyncio.state w) (StreamIO.writer (ThrottleStreamIO.base one)) = [] ->
    let run := (ThrottleStreamIO.write one c ;; ThrottleStreamIO.wait other Write) w in
    fst run = Ok tt /\
    Asyncio.time (snd run) == Asyncio.time w + inject_Z (len c) / inject_Z L.
Proof.
  intros one other w key1 key2 pair L r c Hd1 Hd2 Hth HL Hr Hto Hdr run.
  unfold run, Asyncio.bind.
  destruct (write_step_fresh one w key1 pair L r c Hd1 Hth HL Hr Hto Hdr)
    as (Hok & _ & Hth1 & _ & Ht1).
  pose proof (write_keeps_dicts one c w) as Hdicts.
  destruct (ThrottleStreamIO.write one c w) as [res w1]. cbn [fst snd] in *. subst res.
  rewrite stream_wait_run. cbn [fst snd].
  assert (Hd2' : dict_at (Asyncio.state w1) (ThrottleStreamIO.throttles other) = [(key2, pair)])
    by (rewrite Hdicts; exact Hd2).
  destruct (stream_wait_single other Write w1 key2 pair L Hd2') as (_ & _ & Hfin & Hone);
    [unfold Throttle.limit; simpl getattr; now rewrite Hth1 | exact HL |].
  simpl getattr in Hfin, Hone.
  pose proof (wait_limited (write pair) w1 L (Asyncio.time w)) as Hw. cbv zeta in Hw.
  rewrite Hth1 in Hw. specialize (Hw eq_refl HL eq_refl). cbn [_sum] in Hw.
  rewrite Hw in Hfin, Hone. cbn [snd after_sleep Asyncio.time] in Hfin, Hone.
  assert (H0 : (0 <= inject_Z (len c) / inject_Z L)%Q).
  { assert (Hz : inject_Z 0 / inject_Z L == 0) by (unfold Qdiv; rewrite Qmult_0_l; reflexivity).
    rewrite <- Hz. apply div_mono_num; [apply len_nonneg | exact HL]. }
  pose proof (py_max0_of_nonneg
                (Asyncio.time w + inject_Z (len c) / inject_Z L - Asyncio.time w1)
                ltac:(lra)) as Hmax.
  split; [reflexivity |].
  destruct Hone as [E | E]; rewrite E in Hfin |- *; lra.
Qed.

Lemma shared_pair_is_one_budget_witness :
  let one := ThrottleStreamIO.__init__ 0 0 None None None None in
  let other := ThrottleStreamIO.__init__ 1 1 None None None None in
  let w := snd ((pair <- StreamThrottle.from_limits None (Some 1000%Z) ;;
                 ThrottleStreamIO.throttles_setitem one "server" pair)
                  (Asyncio.mkWorld 3 [] ThrottleStreamIO.loaded)) in
  let run := (ThrottleStreamIO.write one (chunk 500) ;;
              ThrottleStreamIO.wait other Write) w in
  fst run = Ok tt /\
  Asyncio.time (snd run) == 3 + inject_Z 500 / inject_Z 1000.
Proof.
  intros one other w run.
  apply (shared_pair_is_one_budget one other w "server"%string "server"%string
           (mkStreamThrottle 1%nat 2%nat) 1000%Z 10 (chunk 500));
    [reflexivity | reflexivity | reflexivity | lia | unfold Qle; simpl; lia
    | reflexivity | reflexivity].
Defined.
